(** * Corrective RAG: the evaluate / route / synthesize pipeline

    A shallow embedding of [app/services/crag.py] (class [CRAGService]) and of
    the part of [app/config.py] it reads, with the properties of the routing
    rule, of the failure fallback and of the context assembly.

    Python values are modelled as follows.
    - A JSON document returned by [json.loads] is a value of [json]; an
      object is a finite map from keys to values, as a Python dict is.
    - A number (a Python int or float) is its exact rational value, or one of
      the three non-finite floats that [json.loads] also accepts.  Python
      compares an int with a float by exact value, so one type serves both.
    - A Python str is its UTF-8 encoding, a string of bytes; a slice counts
      code points, not bytes.
    - A method that can raise returns a [result]; the collaborators reached
      through [self.llm] and [self.web_search] are functions given to the
      development, and every call to them is recorded in a call log. *)

From Stdlib Require Import QArith Qabs Ascii String.
From stdpp Require Import base option list strings gmap pretty.

Open Scope string_scope.
Set Warnings "-register-all".

(** ** Python values *)

Module Py.

Inductive number : Type :=
| Finite (q : Q)
| NaN
| Infinity
| NegInfinity.

Definition Qltb (x y : Q) : bool := negb (Qle_bool y x).

(** [x < y] on numbers; every comparison with NaN is false. *)
Definition number_ltb (x y : number) : bool :=
  match x, y with
  | NaN, _ | _, NaN => false
  | Finite a, Finite b => Qltb a b
  | Finite _, Infinity => true
  | Finite _, NegInfinity => false
  | Infinity, _ => false
  | NegInfinity, NegInfinity => false
  | NegInfinity, _ => true
  end.

Inductive json : Type :=
| JNull
| JBool (b : bool)
| JNum (x : number)
| JStr (s : string)
| JArr (items : list json)
| JObj (fields : gmap string json).

Inductive exn : Type :=
| TypeError
| ValueError
| OverflowError
| AttributeError
| JSONDecodeError
| ValidationError
| ServiceError (msg : string).

Inductive result (A : Type) : Type :=
| Ok (a : A)
| Raised (e : exn).
Arguments Ok {A} a.
Arguments Raised {A} e.

(** [v == s] for a string literal [s]: only the same string is equal. *)
Definition eq_str (v : json) (s : string) : bool :=
  match v with
  | JStr t => bool_decide (t = s)
  | _ => false
  end.

(** The number a value stands for under [<]: ints and floats themselves,
    [True] as 1 and [False] as 0; no other value is ordered with a float. *)
Definition as_number (v : json) : option number :=
  match v with
  | JNum x => Some x
  | JBool true => Some (Finite 1)
  | JBool false => Some (Finite 0)
  | _ => None
  end.

(** [v < y] for a float [y]; raises [TypeError] on None, str, list, dict. *)
Definition lt (v : json) (y : number) : result bool :=
  match as_number v with
  | Some x => Ok (number_ltb x y)
  | None => Raised TypeError
  end.

(** An int converts to a float when it rounds to a finite double, that is
    when its magnitude is below 2^1024 - 2^970; every finite float is below
    that bound. *)
Definition float_bound : Z := 2 ^ 1024 - 2 ^ 970.

Definition fits_float (q : Q) : bool :=
  negb (Qle_bool (inject_Z float_bound) (Qabs q)).

(** Whether [f"{v:.2f}"] has a value.  It has one for a float, NaN and the
    infinities included, for a bool, and for an int that converts to a
    float; a larger int raises [OverflowError], a string [ValueError], and
    None, a list and a dict [TypeError].  The text goes to the logger only,
    so it is left out. *)
Definition format_2f (v : json) : result unit :=
  match v with
  | JNum (Finite q) => if fits_float q then Ok tt else Raised OverflowError
  | JNum _ | JBool _ => Ok tt
  | JStr _ => Raised ValueError
  | _ => Raised TypeError
  end.

(** [eval_data.get(key, default)]; only a dict has the method. *)
Definition get (eval_data : json) (key : string) (dflt : json) : result json :=
  match eval_data with
  | JObj fields => Ok (default dflt (fields !! key))
  | _ => Raised AttributeError
  end.

End Py.

Import Py.

(** ** Configuration: [app/config.py] *)

Record Settings : Type := {
  openai_api_key : string;
  tavily_api_key : string;
  qdrant_url : string;
  qdrant_api_key : option string;
  qdrant_collection_name : string;
  embedding_model : string;
  llm_model : string;
  embedding_dimensions : Z;
  crag_relevance_threshold : number;
  crag_ambiguous_threshold : number;
  reflection_min_score : number;
  max_reflection_retries : Z;
  top_k_results : Z;
  upload_dir : string;
  max_file_size : Z
}.

(** The two API keys have no default; every other field has the one below. *)
Definition default_settings (openai_key tavily_key : string) : Settings := {|
  openai_api_key := openai_key;
  tavily_api_key := tavily_key;
  qdrant_url := "http://localhost:6333";
  qdrant_api_key := None;
  qdrant_collection_name := "crag_documents";
  embedding_model := "text-embedding-3-small";
  llm_model := "gpt-4o-mini";
  embedding_dimensions := 1536;
  crag_relevance_threshold := Finite (7 # 10);
  crag_ambiguous_threshold := Finite (1 # 2);
  reflection_min_score := Finite (8 # 10);
  max_reflection_retries := 2;
  top_k_results := 5;
  upload_dir := "uploads";
  max_file_size := 50 * 1024 * 1024
|}.

(** ** The models of [app.models] used by the service

    The module is not among the sources.  The fields of [RetrievedChunk],
    [CRAGEvaluation] and [CRAGResult] are those that the constructor calls of
    [retrieval.py] and [crag.py] pass by keyword.  A field filled from the
    grader's answer holds whatever value was decoded. *)

Record RetrievedChunk : Type := {
  content : string;
  metadata : json;
  score : number
}.

(** Modelled from the spec: the module of the web search client is not among
    the sources; a web result has a title, a content and an optional source,
    and the service reads the first two. *)
Record WebResult : Type := {
  title : string;
  web_content : string;
  source : option string
}.

Record CRAGEvaluation : Type := {
  relevance_score : json;
  relevance_label : json;
  confidence : json;
  evaluation_method : string;
  needs_web_search : bool;
  evaluated_at : Z
}.

Record CRAGResult : Type := {
  used_web_search : bool;
  evaluation : CRAGEvaluation;
  retrieved_chunks : list RetrievedChunk;
  web_results : option (list WebResult)
}.

(** ** Calls to the collaborators, and the monad of the service methods *)

Inductive call : Type :=
| LLMGenerateWithJson (prompt system_prompt : string)
| LLMGenerate (prompt system_prompt : string) (max_tokens : Z)
| WebSearch (query : string) (max_results : Z).

(** A method runs on the log of the calls made so far and either returns or
    raises; the log it leaves has the calls it made appended. *)
Definition M (A : Type) : Type := list call -> result A * list call.

Definition ret {A} (a : A) : M A := fun log => (Ok a, log).

Definition raise {A} (e : exn) : M A := fun log => (Raised e, log).

Definition bind {A B} (m : M A) (k : A -> M B) : M B :=
  fun log =>
    match m log with
    | (Ok a, log') => k a log'
    | (Raised e, log') => (Raised e, log')
    end.

(** [try: m except Exception as e: handler e] *)
Definition try_except {A} (m : M A) (handler : exn -> M A) : M A :=
  fun log =>
    match m log with
    | (Ok a, log') => (Ok a, log')
    | (Raised e, log') => handler e log'
    end.

(** A pure step that may raise. *)
Definition lift {A} (r : result A) : M A := fun log => (r, log).

(** A call to a collaborator: logged, then answered. *)
Definition invoke {A} (c : call) (answer : result A) : M A :=
  fun log => (answer, (log ++ [c])%list).

Notation "x <- m ;; k" := (bind m (fun x => k))
  (at level 100, m at next level, right associativity).

(** ** Text *)

Definition nl : string := String "010"%char EmptyString.

Definition dq : string := String "034"%char EmptyString.

(** [sep.join(parts)] *)
Definition join (sep : string) (parts : list string) : string :=
  String.concat sep parts.

(** [f"{i}"] for a non-negative int. *)
Definition fmt (i : nat) : string := pretty i.

(** A byte of the form 10xxxxxx continues the code point begun before it. *)
Definition is_continuation (c : ascii) : bool :=
  match c with
  | Ascii _ _ _ _ _ _ b6 b7 => b7 && negb b6
  end.

(** [s[:n]]: the first [n] code points of [s], each with all its bytes. *)
Fixpoint prefix_code_points (n : nat) (s : string) : string :=
  match s with
  | EmptyString => EmptyString
  | String c rest =>
      if is_continuation c then String c (prefix_code_points n rest)
      else match n with
           | 0 => EmptyString
           | S n' => String c (prefix_code_points n' rest)
           end
  end.

(** ** [class CRAGService] *)

(** What a run of the service depends on besides its arguments: the
    attributes of [self] and the library functions the methods call. *)
Record Env : Type := {
  (** [self.settings], read once by [get_settings()]. *)
  settings : Settings;
  (** [self.llm.generate_with_json], [self.llm.generate] and
      [self.web_search.search]: what each call answers, given its arguments. *)
  llm_generate_with_json : string -> string -> result string;
  llm_generate : string -> string -> Z -> result string;
  web_search_search : string -> Z -> result (list WebResult);
  (** [json.loads]: the dict, list or scalar a text decodes to, or the error. *)
  json_loads : string -> result json;
  (** The reading of [datetime.utcnow()] during the call. *)
  utcnow : Z;
  (** The class [CRAGEvaluation] is declared in [app.models], which is not
      among the sources: which field values its constructor accepts is left
      open.  A rejected value makes the constructor raise; an accepted one is
      stored as it is. *)
  CRAGEvaluation_accepts : json -> json -> json -> bool
}.

Section CRAGService.

Variable env : Env.

Definition new_CRAGEvaluation (relevance_score relevance_label confidence : json)
    (evaluation_method : string) (needs_web_search : bool) (evaluated_at : Z)
  : M CRAGEvaluation :=
  if CRAGEvaluation_accepts env relevance_score relevance_label confidence
  then ret {| relevance_score := relevance_score;
              relevance_label := relevance_label;
              confidence := confidence;
              evaluation_method := evaluation_method;
              needs_web_search := needs_web_search;
              evaluated_at := evaluated_at |}
  else raise ValidationError.

(** *** [evaluate_relevance] *)

(** Lines 24-27: the chunks, numbered from 1, each cut to 300 code points. *)
Definition evaluation_context (retrieved_chunks : list RetrievedChunk) : string :=
  join (nl +:+ nl)
    (imap (fun i chunk => "Chunk " +:+ fmt (i + 1) +:+ ": "
                          +:+ prefix_code_points 300 (content chunk))
          retrieved_chunks).

(** Lines 29-48. *)
Definition evaluation_prompt (query context : string) : string :=
  join nl [
    "Evaluate if the following retrieved documents are relevant to answer the query.";
    EmptyString;
    "Query: " +:+ query;
    EmptyString;
    "Retrieved Documents:";
    context;
    EmptyString;
    "Provide evaluation as JSON:";
    "{";
    "    " +:+ dq +:+ "relevance_score" +:+ dq +:+ ": <float 0.0-1.0>,";
    "    " +:+ dq +:+ "relevance_label" +:+ dq +:+ ": " +:+ dq
           +:+ "<relevant|ambiguous|irrelevant>" +:+ dq +:+ ",";
    "    " +:+ dq +:+ "confidence" +:+ dq +:+ ": <float 0.0-1.0>,";
    "    " +:+ dq +:+ "reasoning" +:+ dq +:+ ": " +:+ dq
           +:+ "<brief explanation>" +:+ dq;
    "}";
    EmptyString;
    "Scoring guide:";
    "- relevant (0.7-1.0): Documents directly answer the query";
    "- ambiguous (0.4-0.7): Partial information, may need web search";
    "- irrelevant (0.0-0.4): Documents don't help answer the query";
    EmptyString
  ].

Definition evaluation_system_prompt : string :=
  "You are a relevance evaluator for RAG systems. Always respond with valid JSON.".

(** Lines 61-64.  [a or (b and c)] evaluates [c] only when [a] is false and
    [b] is true, so the score is compared only under the ambiguous label. *)
Definition routing (relevance_label relevance_score : json) : result bool :=
  if eq_str relevance_label "irrelevant" then Ok true
  else if eq_str relevance_label "ambiguous"
       then lt relevance_score (crag_ambiguous_threshold (settings env))
       else Ok false.

(** Lines 53-73: the body of the [try]. *)
Definition evaluate_relevance_try (query : string)
    (retrieved_chunks : list RetrievedChunk) : M CRAGEvaluation :=
  let prompt := evaluation_prompt query (evaluation_context retrieved_chunks) in
  let system_prompt := evaluation_system_prompt in
  response <- invoke (LLMGenerateWithJson prompt system_prompt)
                     (llm_generate_with_json env prompt system_prompt) ;;
  eval_data <- lift (json_loads env response) ;;
  relevance_score <- lift (get eval_data "relevance_score" (JNum (Finite (1 # 2)))) ;;
  relevance_label <- lift (get eval_data "relevance_label" (JStr "ambiguous")) ;;
  confidence <- lift (get eval_data "confidence" (JNum (Finite (7 # 10)))) ;;
  needs_web_search <- lift (routing relevance_label relevance_score) ;;
  new_CRAGEvaluation relevance_score relevance_label confidence
                     "llm_grader" needs_web_search (utcnow env).

(** Lines 75-85: the handler, which ignores the exception it caught. *)
Definition evaluate_relevance_except (e : exn) : M CRAGEvaluation :=
  new_CRAGEvaluation (JNum (Finite (1 # 2))) (JStr "ambiguous") (JNum (Finite (1 # 2)))
                     "llm_grader" true (utcnow env).

Definition evaluate_relevance (query : string)
    (retrieved_chunks : list RetrievedChunk) : M CRAGEvaluation :=
  try_except (evaluate_relevance_try query retrieved_chunks)
             evaluate_relevance_except.

(** *** [execute_crag]

    Line 97 formats the score with [.2f] for the logger, which raises on a
    score that is not a number; nothing else of the logging is kept. *)

Definition execute_crag (query : string)
    (retrieved_chunks : list RetrievedChunk) : M CRAGResult :=
  evaluation <- evaluate_relevance query retrieved_chunks ;;
  _ <- lift (format_2f (relevance_score evaluation)) ;;
  routed <- (if needs_web_search evaluation
             then found <- invoke (WebSearch query 3) (web_search_search env query 3) ;;
                  ret (Some found, true)
             else ret (None, false)) ;;
  ret {| used_web_search := snd routed;
         evaluation := evaluation;
         retrieved_chunks := retrieved_chunks;
         web_results := fst routed |}.

(** *** [generate_answer_with_crag] *)

(** [if crag_result.web_results:] holds for a list with an element; it fails
    for [None] and for the empty list. *)
Definition truthy (web_results : option (list WebResult)) : bool :=
  match web_results with
  | Some (_ :: _) => true
  | _ => false
  end.

(** Line 130, for the [i] of [enumerate(..., 1)]. *)
Definition source_part (i : nat) (result : WebResult) : string :=
  nl +:+ "Source " +:+ fmt i +:+ " (" +:+ title result +:+ "):" +:+ nl
  +:+ web_content result.

(** Lines 128-130. *)
Definition web_search_parts (results : list WebResult) : list string :=
  "=== Web Search Results ==="
  :: imap (fun k result => source_part (k + 1) result) results.

(** Line 135. *)
Definition document_part (i : nat) (chunk : RetrievedChunk) : string :=
  nl +:+ "Document " +:+ fmt i +:+ ":" +:+ nl +:+ content chunk.

(** Lines 133-135. *)
Definition retrieved_parts (chunks : list RetrievedChunk) : list string :=
  "=== Retrieved Documents ==="
  :: imap (fun k chunk => document_part (k + 1) chunk) chunks.

(** Line 140. *)
Definition web_source_part (i : nat) (result : WebResult) : string :=
  nl +:+ "Web Source " +:+ fmt i +:+ ":" +:+ nl +:+ web_content result.

(** Lines 138-140. *)
Definition additional_web_parts (results : list WebResult) : list string :=
  (nl +:+ nl +:+ "=== Additional Web Information ===")
  :: imap (fun k result => web_source_part (k + 1) result) results.

(** Lines 123-140. *)
Definition context_parts (crag_result : CRAGResult) : list string :=
  if eq_str (relevance_label (evaluation crag_result)) "irrelevant" then
    if truthy (web_results crag_result)
    then web_search_parts (default [] (web_results crag_result))
    else []
  else
    (retrieved_parts (retrieved_chunks crag_result)
     ++ (if used_web_search crag_result && truthy (web_results crag_result)
         then additional_web_parts (default [] (web_results crag_result))
         else []))%list.

Definition answer_context (crag_result : CRAGResult) : string :=
  join nl (context_parts crag_result).

(** Lines 144-151. *)
Definition answer_prompt (query context : string) : string :=
  join nl [
    "Answer the following query using the provided context.";
    EmptyString;
    "Query: " +:+ query;
    EmptyString;
    "Context:";
    context;
    EmptyString;
    "Provide a clear, accurate answer based on the context. If the context doesn't fully answer the query, acknowledge what's missing."
  ].

Definition answer_system_prompt : string :=
  "You are a helpful assistant that answers questions based on provided context.".

Definition generate_answer_with_crag (query : string) (crag_result : CRAGResult)
  : M string :=
  let prompt := answer_prompt query (answer_context crag_result) in
  invoke (LLMGenerate prompt answer_system_prompt 500)
         (llm_generate env prompt answer_system_prompt 500).

End CRAGService.

(** ** The specification's wording of the rule and of the configuration *)

(** The routing rule as the specification writes it (section 4.1):
    the label is irrelevant, or the label is ambiguous and the score is below
    the threshold.  A score that is not a number is below nothing. *)
Definition routing_rule (label score : json) (ambiguous_threshold : number) : bool :=
  eq_str label "irrelevant"
  || (eq_str label "ambiguous"
      && match as_number score with
         | Some x => number_ltb x ambiguous_threshold
         | None => false
         end).

(** The evaluation built by the handler of [evaluate_relevance]. *)
Definition fallback_evaluation (now : Z) : CRAGEvaluation := {|
  relevance_score := JNum (Finite (1 # 2));
  relevance_label := JStr "ambiguous";
  confidence := JNum (Finite (1 # 2));
  evaluation_method := "llm_grader";
  needs_web_search := true;
  evaluated_at := now
|}.

(** The configuration surface as the specification lists it (section 3);
    [app/config.py] has a counterpart for the first three options only. *)
Record Configuration : Type := {
  ambiguous_threshold : number;
  relevance_threshold : number;
  top_k : Z;
  max_web_results : Z;
  answer_max_tokens : Z
}.

Definition settings_of (c : Configuration) (openai_key tavily_key : string) : Settings :=
  let d := default_settings openai_key tavily_key in {|
  openai_api_key := openai_api_key d;
  tavily_api_key := tavily_api_key d;
  qdrant_url := qdrant_url d;
  qdrant_api_key := qdrant_api_key d;
  qdrant_collection_name := qdrant_collection_name d;
  embedding_model := embedding_model d;
  llm_model := llm_model d;
  embedding_dimensions := embedding_dimensions d;
  crag_relevance_threshold := relevance_threshold c;
  crag_ambiguous_threshold := ambiguous_threshold c;
  reflection_min_score := reflection_min_score d;
  max_reflection_retries := max_reflection_retries d;
  top_k_results := top_k c;
  upload_dir := upload_dir d;
  max_file_size := max_file_size d
|}.

(** [crag_result] with another list of retrieved chunks. *)
Definition with_chunks (chunks : list RetrievedChunk) (crag_result : CRAGResult)
  : CRAGResult := {|
  used_web_search := used_web_search crag_result;
  evaluation := evaluation crag_result;
  retrieved_chunks := chunks;
  web_results := web_results crag_result
|}.

(** ** Collaborators and data of the scenarios *)

Definition scenario_settings : Settings := default_settings "openai-key" "tavily-key".

(** A configuration, in the specification's sense, that asks for five web
    results and is the default everywhere else. *)
Definition five_results_configuration : Configuration := {|
  ambiguous_threshold := Finite (1 # 2);
  relevance_threshold := Finite (7 # 10);
  top_k := 5;
  max_web_results := 5;
  answer_max_tokens := 500
|}.

Definition accept_all (relevance_score relevance_label confidence : json) : bool := true.

Definition llm_answers (text : string) : string -> string -> result string :=
  fun _ _ => Ok text.

Definition llm_fails : string -> string -> result string :=
  fun _ _ => Raised (ServiceError "completion timed out").

Definition decodes_to (fields : gmap string json) : string -> result json :=
  fun _ => Ok (JObj fields).

Definition graded (label : string) (score : Q) : gmap string json :=
  <["relevance_score" := JNum (Finite score)]>
    (<["relevance_label" := JStr label]> (<["confidence" := JNum (Finite (9 # 10))]> ∅)).

Definition label_only (label : string) : gmap string json :=
  <["relevance_label" := JStr label]> ∅.

Definition search_finds (found : list WebResult) : string -> Z -> result (list WebResult) :=
  fun _ _ => Ok found.

Definition search_fails : string -> Z -> result (list WebResult) :=
  fun _ _ => Raised (ServiceError "search unavailable").

(** A service under given settings and collaborators; the clock reads 0,
    the model accepts every field value, the answer generator says Paris. *)
Definition scenario_with (settings : Settings)
    (grader : string -> string -> result string)
    (loads : string -> result json)
    (search : string -> Z -> result (list WebResult)) : Env := {|
  settings := settings;
  llm_generate_with_json := grader;
  llm_generate := fun _ _ _ => Ok "Paris.";
  web_search_search := search;
  json_loads := loads;
  utcnow := 0;
  CRAGEvaluation_accepts := accept_all
|}.

Definition scenario := scenario_with scenario_settings.

Definition capital_query : string := "What is the capital of France?".

Definition capital_chunk : RetrievedChunk := {|
  content := "Paris is the capital of France.";
  metadata := JNull;
  score := Finite (9 # 10)
|}.

Definition capital_page : WebResult := {|
  title := "France";
  web_content := "The capital of France is Paris.";
  source := None
|}.

Definition evaluation_of (label : string) (score : Q) (needs : bool) : CRAGEvaluation := {|
  relevance_score := JNum (Finite score);
  relevance_label := JStr label;
  confidence := JNum (Finite (9 # 10));
  evaluation_method := "llm_grader";
  needs_web_search := needs;
  evaluated_at := 0
|}.

(** Scenario C: ambiguous at 0.45, the search finds one page. *)
Definition scenario_c : Env :=
  scenario (llm_answers "{...}") (decodes_to (graded "ambiguous" (45 # 100)))
           (search_finds [capital_page]).

Definition scenario_c_result : CRAGResult := {|
  used_web_search := true;
  evaluation := evaluation_of "ambiguous" (45 # 100) true;
  retrieved_chunks := [capital_chunk];
  web_results := Some [capital_page]
|}.

(** Scenario D: ambiguous at 0.6. *)
Definition scenario_d : Env :=
  scenario (llm_answers "{...}") (decodes_to (graded "ambiguous" (6 # 10)))
           (search_finds [capital_page]).

(** The grader answers irrelevant and the search is down. *)
Definition scenario_search_down : Env :=
  scenario (llm_answers "{...}") (decodes_to (graded "irrelevant" (2 # 10)))
           search_fails.

(** The completion call of the grader raises. *)
Definition scenario_grader_down : Env :=
  scenario llm_fails (decodes_to ∅) (search_finds [capital_page]).

(** The grader's answer has a label and nothing else. *)
Definition scenario_label_only : Env :=
  scenario (llm_answers "{...}") (decodes_to (label_only "relevant"))
           (search_finds [capital_page]).

Definition label_only_evaluation : CRAGEvaluation := {|
  relevance_score := JNum (Finite (1 # 2));
  relevance_label := JStr "relevant";
  confidence := JNum (Finite (7 # 10));
  evaluation_method := "llm_grader";
  needs_web_search := false;
  evaluated_at := 0
|}.

(** An irrelevant label, a chunk at hand, a search that found nothing. *)
Definition irrelevant_empty_result : CRAGResult := {|
  used_web_search := true;
  evaluation := evaluation_of "irrelevant" (2 # 10) true;
  retrieved_chunks := [capital_chunk];
  web_results := Some []
|}.

Definition grader_log : list call :=
  [LLMGenerateWithJson
     (evaluation_prompt capital_query (evaluation_context [capital_chunk]))
     evaluation_system_prompt].

(** ** [class RetrievalService]: [app/core/retrieval.py] *)

Module Retrieval.

(** What [retrieve] can raise: [KeyError] from a subscript, or whatever a
    callee or a built-in operation raises. *)
Inductive error : Type :=
| KeyError (key : string)
| Other (e : exn).

Inductive outcome (A : Type) : Type :=
| Returned (a : A)
| Failed (e : error).
Arguments Returned {A} a.
Arguments Failed {A} e.

Definition and_then {A B} (m : outcome A) (k : A -> outcome B) : outcome B :=
  match m with
  | Returned a => k a
  | Failed e => Failed e
  end.

Notation "'let*' x := m 'in' k" := (and_then m (fun x => k))
  (at level 10, x name, m at level 100, k at level 200).

Definition of_result {A} (r : result A) : outcome A :=
  match r with
  | Ok a => Returned a
  | Raised e => Failed (Other e)
  end.

(** The calls [retrieve] makes to [self.embedding_service] and
    [self.vector_store]. *)
Inductive call : Type :=
| EmbedText (text : string)
| VectorSearch (query_vector : list number) (top_k : Z).

(** The attributes of [self], and the constructors of the two models of
    [app.models], which is not among the sources: what each constructor
    accepts and builds is left open. *)
Record Env : Type := {
  settings : Settings;
  embed_text : string -> result (list number);
  vector_store_search : list number -> Z -> result (list json);
  (** [ChunkMetadata] called with the fields of a dict as keyword arguments. *)
  new_ChunkMetadata : gmap string json -> result json;
  (** [RetrievedChunk(content=..., metadata=..., score=...)] *)
  new_RetrievedChunk : json -> json -> json -> result RetrievedChunk
}.

(** [v[key]] for a string key: a dict looks the key up, any other value
    cannot be subscripted by a string. *)
Definition getitem (v : json) (key : string) : outcome json :=
  match v with
  | JObj fields =>
      match fields !! key with
      | Some x => Returned x
      | None => Failed (KeyError key)
      end
  | _ => Failed (Other TypeError)
  end.

(** [ChunkMetadata] called with [v] unpacked: only a mapping can be unpacked. *)
Definition unpack_ChunkMetadata (env : Env) (v : json) : outcome json :=
  match v with
  | JObj fields => of_result (new_ChunkMetadata env fields)
  | _ => Failed (Other TypeError)
  end.

(** Lines 36-40: the keyword arguments are evaluated from left to right,
    then the chunk is built. *)
Definition convert (env : Env) (hit : json) : outcome RetrievedChunk :=
  let* content := getitem hit "content" in
  let* fields := getitem hit "metadata" in
  let* metadata := unpack_ChunkMetadata env fields in
  let* score := getitem hit "score" in
  of_result (new_RetrievedChunk env content metadata score).

(** Lines 34-41: the loop; the first hit that raises ends it. *)
Fixpoint convert_all (env : Env) (results : list json) : outcome (list RetrievedChunk) :=
  match results with
  | [] => Returned []
  | hit :: rest =>
      let* chunk := convert env hit in
      let* chunks := convert_all env rest in
      Returned (chunk :: chunks)
  end.

(** [retrieve(query, top_k)], with the calls it made. *)
Definition retrieve (env : Env) (query : string) (top_k : option Z)
  : outcome (list RetrievedChunk) * list call :=
  let top_k := match top_k with
               | None => top_k_results (settings env)
               | Some k => k
               end in
  match embed_text env query with
  | Raised e => (Failed (Other e), [EmbedText query])
  | Ok query_vector =>
      match vector_store_search env query_vector top_k with
      | Raised e =>
          (Failed (Other e), [EmbedText query; VectorSearch query_vector top_k])
      | Ok results =>
          (convert_all env results,
           [EmbedText query; VectorSearch query_vector top_k])
      end
  end.

End Retrieval.

(** ** Further data of the scenarios *)

(** The service [env] under other settings. *)
Definition with_settings (s : Settings) (env : Env) : Env := {|
  settings := s;
  llm_generate_with_json := llm_generate_with_json env;
  llm_generate := llm_generate env;
  web_search_search := web_search_search env;
  json_loads := json_loads env;
  utcnow := utcnow env;
  CRAGEvaluation_accepts := CRAGEvaluation_accepts env
|}.

(** Scenario A: relevant at 0.92. *)
Definition scenario_a : Env :=
  scenario (llm_answers "{...}") (decodes_to (graded "relevant" (92 # 100)))
           (search_finds [capital_page]).

(** The grader answers ambiguous with a score that is NaN. *)
Definition scenario_nan : Env :=
  scenario (llm_answers "{...}")
           (decodes_to (<["relevance_score" := JNum NaN]> (label_only "ambiguous")))
           (search_finds [capital_page]).

(** The grader answers a list. *)
Definition scenario_list : Env :=
  scenario (llm_answers "[]") (fun _ => Ok (JArr [])) (search_finds [capital_page]).

(** The grader gives a score in words, without a label. *)
Definition scenario_worded_score : Env :=
  scenario (llm_answers "{...}") (decodes_to (<["relevance_score" := JStr "high"]> ∅))
           (search_finds [capital_page]).

(** The grader gives a score in words, under the label relevant. *)
Definition scenario_worded_relevant : Env :=
  scenario (llm_answers "{...}")
           (decodes_to (<["relevance_score" := JStr "high"]> (label_only "relevant")))
           (search_finds [capital_page]).

Definition worded_relevant_evaluation : CRAGEvaluation := {|
  relevance_score := JStr "high";
  relevance_label := JStr "relevant";
  confidence := JNum (Finite (7 # 10));
  evaluation_method := "llm_grader";
  needs_web_search := false;
  evaluated_at := 0
|}.

(** The grader answers irrelevant with the score 10^400, an int that no
    float holds. *)
Definition scenario_huge_score : Env :=
  scenario (llm_answers "{...}")
           (decodes_to (<["relevance_score" := JNum (Finite (inject_Z (10 ^ 400)))]>
                          (label_only "irrelevant")))
           (search_finds [capital_page]).

(** The grader answers the empty object. *)
Definition scenario_empty_object : Env :=
  scenario (llm_answers "{}") (decodes_to ∅) (search_finds [capital_page]).

(** Settings with the ambiguity threshold raised to 0.7. *)
Definition lenient_settings : Settings :=
  settings_of {| ambiguous_threshold := Finite (7 # 10);
                 relevance_threshold := Finite (7 # 10);
                 top_k := 5; max_web_results := 3; answer_max_tokens := 500 |}
              "openai-key" "tavily-key".

(** Settings with the default ambiguity threshold and everything else that
    the configuration can change changed. *)
Definition other_settings : Settings :=
  settings_of {| ambiguous_threshold := Finite (1 # 2);
                 relevance_threshold := Finite (9 # 10);
                 top_k := 20; max_web_results := 3; answer_max_tokens := 500 |}
              "another-key" "yet-another-key".

(** The letter e with an acute accent: one code point, two bytes. *)
Definition e_acute : string := String "195"%char (String "169"%char EmptyString).

(** The euro sign: one code point, three bytes. *)
Definition euro : string :=
  String "226"%char (String "130"%char (String "172"%char EmptyString)).

(** Two chunks that differ after their 300th code point, in their metadata
    and in their score.  The 300 code points take 330 bytes. *)
Definition three_hundred : string :=
  String.concat EmptyString (replicate 30 (e_acute +:+ "123456789")).

Definition long_chunk_one : RetrievedChunk := {|
  content := three_hundred +:+ " and then the first ending";
  metadata := JNull;
  score := Finite (9 # 10)
|}.

Definition long_chunk_two : RetrievedChunk := {|
  content := three_hundred +:+ " and then the second ending";
  metadata := JStr "another source";
  score := Finite (1 # 10)
|}.

(** A vector store hit, as [retrieve] reads it. *)
Definition hit (text : string) (similarity : Q) : json :=
  JObj (<["content" := JStr text]>
          (<["metadata" := JObj (<["filename" := JStr "france.pdf"]> ∅)]>
             (<["score" := JNum (Finite similarity)]> ∅))).

Definition chunk_of (text : string) (similarity : Q) : RetrievedChunk := {|
  content := text;
  metadata := JObj (<["filename" := JStr "france.pdf"]> ∅);
  score := Finite similarity
|}.

(** A retrieval service whose store answers [hits]; the models accept a
    string as content and a number as score. *)
Definition retrieval_scenario (hits : list json) : Retrieval.Env := {|
  Retrieval.settings := scenario_settings;
  Retrieval.embed_text := fun _ => Ok [Finite 1; Finite 0];
  Retrieval.vector_store_search := fun _ _ => Ok hits;
  Retrieval.new_ChunkMetadata := fun fields => Ok (JObj fields);
  Retrieval.new_RetrievedChunk :=
    fun content metadata score =>
      match content, as_number score with
      | JStr text, Some x => Ok {| content := text; metadata := metadata; score := x |}
      | _, _ => Raised ValidationError
      end
|}.

Definition two_hits : list json :=
  [hit "Paris is the capital of France." (9 # 10);
   hit "Lyon is a city in France." (5 # 10)].

Definition retrieval_calls : list Retrieval.call :=
  [Retrieval.EmbedText capital_query;
   Retrieval.VectorSearch [Finite 1; Finite 0] 5].

(** ** Running the monad *)

Lemma bind_Ok {A B} (m : M A) (k : A -> M B) log b log' :
  bind m k log = (Ok b, log') ->
  exists a log1, m log = (Ok a, log1) /\ k a log1 = (Ok b, log').
Proof.
  unfold bind. destruct (m log) as [[a | e] log1]; intros H.
  - exists a, log1. split; [reflexivity | exact H].
  - discriminate H.
Qed.

Lemma bind_Raised {A B} (m : M A) (k : A -> M B) log e log' :
  bind m k log = (Raised e, log') ->
  m log = (Raised e, log')
  \/ exists a log1, m log = (Ok a, log1) /\ k a log1 = (Raised e, log').
Proof.
  unfold bind. destruct (m log) as [[a | e0] log1]; intros H.
  - right. exists a, log1. split; [reflexivity | exact H].
  - left. inversion H. reflexivity.
Qed.

Lemma bind_step {A B} (m : M A) (k : A -> M B) log a log1 :
  m log = (Ok a, log1) -> bind m k log = k a log1.
Proof. unfold bind. intros ->. reflexivity. Qed.

Lemma bind_fail {A B} (m : M A) (k : A -> M B) log e log1 :
  m log = (Raised e, log1) -> bind m k log = (Raised e, log1).
Proof. unfold bind. intros ->. reflexivity. Qed.

Lemma lift_run {A} (r : result A) log r' log' :
  lift r log = (r', log') -> r' = r /\ log' = log.
Proof. unfold lift. intros H. inversion H. split; reflexivity. Qed.

Lemma invoke_run {A} c (answer : result A) log r' log' :
  invoke c answer log = (r', log') -> r' = answer /\ log' = (log ++ [c])%list.
Proof. unfold invoke. intros H. inversion H. split; reflexivity. Qed.

Lemma try_except_Ok {A} (m : M A) handler log a log' :
  m log = (Ok a, log') -> try_except m handler log = (Ok a, log').
Proof. unfold try_except. intros ->. reflexivity. Qed.

Lemma try_except_Raised {A} (m : M A) handler log e log' :
  m log = (Raised e, log') -> try_except m handler log = handler e log'.
Proof. unfold try_except. intros ->. reflexivity. Qed.

(** ** The routing expression *)

Lemma eq_str_true v s : eq_str v s = true <-> v = JStr s.
Proof.
  destruct v; simpl; try (split; [discriminate | intros H; discriminate H]).
  rewrite bool_decide_eq_true. split; [intros -> | intros H; inversion H]; reflexivity.
Qed.

Lemma eq_str_refl s : eq_str (JStr s) s = true.
Proof. apply eq_str_true. reflexivity. Qed.

(** When the expression of lines 61-64 has a value, it is the rule's. *)
Lemma routing_Ok env label score b :
  routing env label score = Ok b ->
  b = routing_rule label score (crag_ambiguous_threshold (settings env)).
Proof.
  unfold routing, routing_rule, lt.
  destruct (eq_str label "irrelevant"); simpl.
  - intros H. inversion H. reflexivity.
  - destruct (eq_str label "ambiguous"); simpl.
    + destruct (as_number score); intros H; inversion H. reflexivity.
    + intros H. inversion H. reflexivity.
Qed.

Lemma routing_rule_true label score thr :
  routing_rule label score thr = true <->
  label = JStr "irrelevant"
  \/ (label = JStr "ambiguous"
      /\ exists x, as_number score = Some x /\ number_ltb x thr = true).
Proof.
  unfold routing_rule. rewrite orb_true_iff, andb_true_iff, !eq_str_true.
  split; (intros [H | [H1 H2]]; [left; exact H | right; split; [exact H1 |]]).
  - destruct (as_number score) as [x |]; [| discriminate H2].
    exists x. split; [reflexivity | exact H2].
  - destruct H2 as (x & -> & H). exact H.
Qed.

(** ** Properties of [evaluate_relevance] *)

Section Evaluation.

Variable env : Env.

Local Abbreviation grader_call query chunks :=
  (LLMGenerateWithJson (evaluation_prompt query (evaluation_context chunks))
                       evaluation_system_prompt).
Local Abbreviation grader_answer query chunks :=
  (llm_generate_with_json env (evaluation_prompt query (evaluation_context chunks))
                          evaluation_system_prompt).

Lemma new_CRAGEvaluation_run s l c m n t log r log' :
  new_CRAGEvaluation env s l c m n t log = (r, log') ->
  log' = log
  /\ (if CRAGEvaluation_accepts env s l c
      then r = Ok {| relevance_score := s; relevance_label := l; confidence := c;
                     evaluation_method := m; needs_web_search := n;
                     evaluated_at := t |}
      else r = Raised ValidationError).
Proof.
  unfold new_CRAGEvaluation, ret, raise.
  destruct (CRAGEvaluation_accepts env s l c); intros H; inversion H; split; reflexivity.
Qed.

(** The [try] body makes exactly one call, whatever its outcome. *)
Lemma evaluate_relevance_try_log query chunks log r log' :
  evaluate_relevance_try env query chunks log = (r, log') ->
  log' = (log ++ [grader_call query chunks])%list.
Proof.
  unfold evaluate_relevance_try, bind, invoke, lift.
  destruct (grader_answer query chunks) as [response | e]; [| intros H; inversion H; reflexivity].
  destruct (json_loads env response) as [eval_data | e]; [| intros H; inversion H; reflexivity].
  destruct (get eval_data "relevance_score" _) as [s | e]; [| intros H; inversion H; reflexivity].
  destruct (get eval_data "relevance_label" _) as [l | e]; [| intros H; inversion H; reflexivity].
  destruct (get eval_data "confidence" _) as [c | e]; [| intros H; inversion H; reflexivity].
  destruct (routing env l s) as [n | e]; [| intros H; inversion H; reflexivity].
  intros H. apply new_CRAGEvaluation_run in H. tauto.
Qed.

(** What a returning [try] body has gone through. *)
Lemma evaluate_relevance_try_Ok query chunks log ev log' :
  evaluate_relevance_try env query chunks log = (Ok ev, log') ->
  exists response fields,
    grader_answer query chunks = Ok response
    /\ json_loads env response = Ok (JObj fields)
    /\ relevance_score ev = default (JNum (Finite (1 # 2))) (fields !! "relevance_score")
    /\ relevance_label ev = default (JStr "ambiguous") (fields !! "relevance_label")
    /\ confidence ev = default (JNum (Finite (7 # 10))) (fields !! "confidence")
    /\ evaluation_method ev = "llm_grader"
    /\ routing env (relevance_label ev) (relevance_score ev)
       = Ok (needs_web_search ev)
    /\ evaluated_at ev = utcnow env
    /\ CRAGEvaluation_accepts env (relevance_score ev) (relevance_label ev) (confidence ev)
       = true.
Proof.
  unfold evaluate_relevance_try. intros H.
  apply bind_Ok in H as (response & log1 & Hllm & H).
  apply invoke_run in Hllm as [Hllm _].
  apply bind_Ok in H as (eval_data & log2 & Hjson & H).
  apply lift_run in Hjson as [Hjson _].
  apply bind_Ok in H as (s & log3 & Hs & H). apply lift_run in Hs as [Hs _].
  apply bind_Ok in H as (l & log4 & Hl & H). apply lift_run in Hl as [Hl _].
  apply bind_Ok in H as (c & log5 & Hc & H). apply lift_run in Hc as [Hc _].
  apply bind_Ok in H as (n & log6 & Hn & H). apply lift_run in Hn as [Hn _].
  apply new_CRAGEvaluation_run in H as [_ H].
  destruct eval_data as [| | | | | fields]; try discriminate Hs.
  simpl in Hs, Hl, Hc. inversion Hs; inversion Hl; inversion Hc; subst s l c.
  destruct (CRAGEvaluation_accepts env _ _ _) eqn:Hacc; [| discriminate H].
  inversion H; subst ev; simpl.
  exists response, fields. repeat split; try reflexivity; try assumption.
  - symmetry; exact Hllm.
  - symmetry; exact Hjson.
  - symmetry; exact Hn.
Qed.

(** Conversely: a decoded object whose fields route without a type error and
    are accepted by the model makes the [try] body return. *)
Lemma evaluate_relevance_try_returns query chunks log response fields n :
  let s := default (JNum (Finite (1 # 2))) (fields !! "relevance_score") in
  let l := default (JStr "ambiguous") (fields !! "relevance_label") in
  let c := default (JNum (Finite (7 # 10))) (fields !! "confidence") in
  grader_answer query chunks = Ok response ->
  json_loads env response = Ok (JObj fields) ->
  routing env l s = Ok n ->
  CRAGEvaluation_accepts env s l c = true ->
  evaluate_relevance_try env query chunks log
  = (Ok {| relevance_score := s; relevance_label := l; confidence := c;
           evaluation_method := "llm_grader"; needs_web_search := n;
           evaluated_at := utcnow env |},
     (log ++ [grader_call query chunks])%list).
Proof.
  intros s l c Hllm Hjson Hn Hacc.
  unfold evaluate_relevance_try, bind, invoke, lift, new_CRAGEvaluation, ret.
  rewrite Hllm, Hjson. simpl. fold s l c. rewrite Hn, Hacc. reflexivity.
Qed.

(** The handler returns the fallback as soon as the model accepts its fields. *)
Lemma evaluate_relevance_except_run e log :
  CRAGEvaluation_accepts env (JNum (Finite (1 # 2))) (JStr "ambiguous") (JNum (Finite (1 # 2)))
  = true ->
  evaluate_relevance_except env e log
  = (Ok (fallback_evaluation (utcnow env)), log).
Proof.
  intros Hacc. unfold evaluate_relevance_except, new_CRAGEvaluation, ret.
  rewrite Hacc. reflexivity.
Qed.

(** An evaluation comes from the [try] body or is the handler's fallback. *)
Lemma evaluate_relevance_Ok query chunks log ev log' :
  evaluate_relevance env query chunks log = (Ok ev, log') ->
  evaluate_relevance_try env query chunks log = (Ok ev, log')
  \/ (exists e, evaluate_relevance_try env query chunks log = (Raised e, log'))
     /\ ev = fallback_evaluation (utcnow env).
Proof.
  unfold evaluate_relevance, try_except.
  destruct (evaluate_relevance_try env query chunks log) as [[ev0 | e] log1] eqn:Htry; intros H.
  - left. exact H.
  - right. unfold evaluate_relevance_except in H.
    apply new_CRAGEvaluation_run in H as [-> H].
    destruct (CRAGEvaluation_accepts env _ _ _); [| discriminate H].
    inversion H. split; [exists e; reflexivity | reflexivity].
Qed.

(** C1.  On a response that the [try] block takes to its end (the call
    answers, the answer decodes to an object, its fields raise no error), the
    evaluation returned by [evaluate_relevance] is the one built there, and its
    [needs_web_search] is true exactly when the label is irrelevant, or the
    label is ambiguous and the score is below [crag_ambiguous_threshold].
    Hence a relevant label gives false and an irrelevant label gives true
    whatever the score, and under the threshold 0.5 an ambiguous label gives
    true at score 0.45 and false at score 0.6. *)
Theorem routing_decision query chunks log ev log' :
  evaluate_relevance_try env query chunks log = (Ok ev, log') ->
  evaluate_relevance env query chunks log = (Ok ev, log')
  /\ (needs_web_search ev = true <->
      relevance_label ev = JStr "irrelevant"
      \/ (relevance_label ev = JStr "ambiguous"
          /\ exists x, as_number (relevance_score ev) = Some x
                       /\ number_ltb x (crag_ambiguous_threshold (settings env)) = true))
  /\ (relevance_label ev = JStr "relevant" -> needs_web_search ev = false)
  /\ (relevance_label ev = JStr "irrelevant" -> needs_web_search ev = true)
  /\ (relevance_label ev = JStr "ambiguous" ->
      crag_ambiguous_threshold (settings env) = Finite (1 # 2) ->
      (relevance_score ev = JNum (Finite (45 # 100)) -> needs_web_search ev = true)
      /\ (relevance_score ev = JNum (Finite (6 # 10)) -> needs_web_search ev = false)).
Proof.
  intros Htry. split; [apply try_except_Ok; exact Htry |].
  apply evaluate_relevance_try_Ok in Htry
    as (_ & _ & _ & _ & _ & _ & _ & _ & Hroute & _).
  apply routing_Ok in Hroute. rewrite Hroute.
  split; [apply routing_rule_true |].
  split; [intros ->; reflexivity |].
  split; [intros ->; reflexivity |].
  intros -> ->. split; intros ->; reflexivity.
Qed.

(** C2, as amended.  An evaluation returned by [evaluate_relevance] is either
    the one built by the [try] block, whose [needs_web_search] is the value of
    the routing rule at its label, its score and the threshold, or the
    handler's fallback, whose [needs_web_search] is the constant true; at the
    fallback's label and score the rule gives true only for a threshold
    above 0.5. *)
Theorem needs_web_search_by_path query chunks log ev log' :
  evaluate_relevance env query chunks log = (Ok ev, log') ->
  (evaluate_relevance_try env query chunks log = (Ok ev, log')
   /\ needs_web_search ev
      = routing_rule (relevance_label ev) (relevance_score ev)
                     (crag_ambiguous_threshold (settings env)))
  \/ ((exists e, evaluate_relevance_try env query chunks log = (Raised e, log'))
      /\ ev = fallback_evaluation (utcnow env)
      /\ needs_web_search ev = true
      /\ routing_rule (relevance_label ev) (relevance_score ev)
                      (crag_ambiguous_threshold (settings env))
         = number_ltb (Finite (1 # 2)) (crag_ambiguous_threshold (settings env))).
Proof.
  intros H. apply evaluate_relevance_Ok in H as [Htry | [Hraised ->]].
  - left. split; [exact Htry |].
    apply evaluate_relevance_try_Ok in Htry
      as (_ & _ & _ & _ & _ & _ & _ & _ & Hroute & _).
    apply routing_Ok. exact Hroute.
  - right. split; [exact Hraised |]. split; [reflexivity |]. split; reflexivity.
Qed.

(** C3.  Provided the model accepts the fields of the fallback,
    [evaluate_relevance] returns an evaluation on every query, chunk list and
    behaviour of its collaborators; and when the completion call raises, when
    [json.loads] raises, or when anything else raises inside the [try], the
    evaluation returned is the fallback: score 0.5, label ambiguous,
    confidence 0.5, [needs_web_search] true. *)
Theorem evaluate_relevance_never_raises query chunks log :
  CRAGEvaluation_accepts env (JNum (Finite (1 # 2))) (JStr "ambiguous") (JNum (Finite (1 # 2)))
  = true ->
  let fallback := {| relevance_score := JNum (Finite (1 # 2));
                     relevance_label := JStr "ambiguous";
                     confidence := JNum (Finite (1 # 2));
                     evaluation_method := "llm_grader";
                     needs_web_search := true;
                     evaluated_at := utcnow env |} in
  let log1 := (log ++ [grader_call query chunks])%list in
  (exists ev, evaluate_relevance env query chunks log = (Ok ev, log1))
  /\ (forall e, grader_answer query chunks = Raised e ->
                evaluate_relevance env query chunks log = (Ok fallback, log1))
  /\ (forall response e,
        grader_answer query chunks = Ok response ->
        json_loads env response = Raised e ->
        evaluate_relevance env query chunks log = (Ok fallback, log1))
  /\ (forall e log', evaluate_relevance_try env query chunks log = (Raised e, log') ->
                     evaluate_relevance env query chunks log = (Ok fallback, log1)).
Proof.
  intros Hacc fallback log1.
  assert (Hraised : forall e log', evaluate_relevance_try env query chunks log = (Raised e, log') ->
                                   evaluate_relevance env query chunks log = (Ok fallback, log1)).
  { intros e log' Htry.
    pose proof (evaluate_relevance_try_log _ _ _ _ _ Htry) as ->.
    unfold evaluate_relevance. rewrite (try_except_Raised _ _ _ _ _ Htry).
    apply evaluate_relevance_except_run. exact Hacc. }
  split; [| split; [| split; [| exact Hraised]]].
  - destruct (evaluate_relevance_try env query chunks log) as [[ev | e] log'] eqn:Htry.
    + exists ev. pose proof (evaluate_relevance_try_log _ _ _ _ _ Htry) as ->.
      apply try_except_Ok. exact Htry.
    + exists fallback. apply (Hraised e log'). reflexivity.
  - intros e Hllm. apply (Hraised e log1).
    unfold evaluate_relevance_try, bind, invoke. rewrite Hllm. reflexivity.
  - intros response e Hllm Hjson. apply (Hraised e log1).
    unfold evaluate_relevance_try, bind, invoke, lift. rewrite Hllm, Hjson. reflexivity.
Qed.

(** C7.  When the answer decodes to an object and the [try] block reaches its
    end, each of the three fields of the evaluation returned is the object's
    value under that key if the key is there, and its own default otherwise:
    0.5 for the score, ambiguous for the label, 0.7 for the confidence. *)
Theorem missing_fields_default query chunks log response fields ev log' :
  grader_answer query chunks = Ok response ->
  json_loads env response = Ok (JObj fields) ->
  evaluate_relevance_try env query chunks log = (Ok ev, log') ->
  evaluate_relevance env query chunks log = (Ok ev, log')
  /\ (fields !! "relevance_score" = None -> relevance_score ev = JNum (Finite (1 # 2)))
  /\ (fields !! "relevance_label" = None -> relevance_label ev = JStr "ambiguous")
  /\ (fields !! "confidence" = None -> confidence ev = JNum (Finite (7 # 10)))
  /\ (forall v, fields !! "relevance_score" = Some v -> relevance_score ev = v)
  /\ (forall v, fields !! "relevance_label" = Some v -> relevance_label ev = v)
  /\ (forall v, fields !! "confidence" = Some v -> confidence ev = v).
Proof.
  intros Hllm Hjson Htry. split; [apply try_except_Ok; exact Htry |].
  apply evaluate_relevance_try_Ok in Htry
    as (response' & fields' & Hllm' & Hjson' & Hs & Hl & Hc & _).
  rewrite Hllm in Hllm'. inversion Hllm'; subst response'.
  rewrite Hjson in Hjson'. inversion Hjson'; subst fields'.
  rewrite Hs, Hl, Hc.
  repeat split; intros; match goal with H : _ !! _ = _ |- _ => rewrite H end;
    reflexivity.
Qed.

End Evaluation.

(** ** Properties of [execute_crag] *)

Section Pipeline.

Variable env : Env.

(** The ways out of [execute_crag] once the evaluation is there. *)
Lemma execute_crag_skipped query chunks log ev log1 :
  evaluate_relevance env query chunks log = (Ok ev, log1) ->
  format_2f (relevance_score ev) = Ok tt ->
  needs_web_search ev = false ->
  execute_crag env query chunks log
  = (Ok {| used_web_search := false; evaluation := ev;
           retrieved_chunks := chunks; web_results := None |}, log1).
Proof.
  intros Hev Hfmt Hneeds. unfold execute_crag.
  rewrite (bind_step _ _ _ _ _ Hev). unfold bind at 1, lift. rewrite Hfmt, Hneeds.
  reflexivity.
Qed.

Lemma execute_crag_searched query chunks log ev log1 found :
  evaluate_relevance env query chunks log = (Ok ev, log1) ->
  format_2f (relevance_score ev) = Ok tt ->
  needs_web_search ev = true ->
  web_search_search env query 3 = Ok found ->
  execute_crag env query chunks log
  = (Ok {| used_web_search := true; evaluation := ev;
           retrieved_chunks := chunks; web_results := Some found |},
     (log1 ++ [WebSearch query 3])%list).
Proof.
  intros Hev Hfmt Hneeds Hfound. unfold execute_crag.
  rewrite (bind_step _ _ _ _ _ Hev).
  unfold bind, lift, invoke, ret. rewrite Hfmt, Hneeds, Hfound. reflexivity.
Qed.

Lemma execute_crag_search_raises query chunks log ev log1 e :
  evaluate_relevance env query chunks log = (Ok ev, log1) ->
  format_2f (relevance_score ev) = Ok tt ->
  needs_web_search ev = true ->
  web_search_search env query 3 = Raised e ->
  execute_crag env query chunks log = (Raised e, (log1 ++ [WebSearch query 3])%list).
Proof.
  intros Hev Hfmt Hneeds Hfound. unfold execute_crag.
  rewrite (bind_step _ _ _ _ _ Hev).
  unfold bind, lift, invoke, ret. rewrite Hfmt, Hneeds, Hfound. reflexivity.
Qed.

Lemma execute_crag_format_raises query chunks log ev log1 e :
  evaluate_relevance env query chunks log = (Ok ev, log1) ->
  format_2f (relevance_score ev) = Raised e ->
  execute_crag env query chunks log = (Raised e, log1).
Proof.
  intros Hev Hfmt. unfold execute_crag.
  rewrite (bind_step _ _ _ _ _ Hev). unfold bind, lift. rewrite Hfmt. reflexivity.
Qed.

(** C4.  In every result returned by [execute_crag], [used_web_search] is the
    evaluation's [needs_web_search], and [web_results] is present exactly
    when [used_web_search] is true. *)
Theorem result_invariant query chunks log r log' :
  execute_crag env query chunks log = (Ok r, log') ->
  used_web_search r = needs_web_search (evaluation r)
  /\ (is_Some (web_results r) <-> used_web_search r = true).
Proof.
  intros H.
  destruct (evaluate_relevance env query chunks log) as [[ev | e] log1] eqn:Hev.
  - destruct (format_2f (relevance_score ev)) as [[] | e] eqn:Hfmt.
    + destruct (needs_web_search ev) eqn:Hneeds.
      * destruct (web_search_search env query 3) as [found | e] eqn:Hfound.
        -- rewrite (execute_crag_searched _ _ _ _ _ _ Hev Hfmt Hneeds Hfound) in H.
           inversion H; subst r; simpl. rewrite Hneeds.
           split; [reflexivity |]. split; [reflexivity | eauto].
        -- rewrite (execute_crag_search_raises _ _ _ _ _ _ Hev Hfmt Hneeds Hfound) in H.
           discriminate H.
      * rewrite (execute_crag_skipped _ _ _ _ _ Hev Hfmt Hneeds) in H.
        inversion H; subst r; simpl. rewrite Hneeds.
        split; [reflexivity |]. split; [intros [? ?] |]; discriminate.
    + rewrite (execute_crag_format_raises _ _ _ _ _ _ Hev Hfmt) in H. discriminate H.
  - unfold execute_crag in H. rewrite (bind_fail _ _ _ _ _ Hev) in H. discriminate H.
Qed.

(** C8, as amended.  Whenever [execute_crag] goes to the web search, that
    is, the evaluation asks for one and the log line has formatted its score,
    it calls the web search client once, after the evaluation, with the
    bound 3; the bound is a literal of the method and is the same under every
    value of the settings.  When the score does not format, the method raises
    at the log line and the web search client is not called. *)
Theorem web_search_bound query chunks log ev log1 :
  evaluate_relevance env query chunks log = (Ok ev, log1) ->
  needs_web_search ev = true ->
  (format_2f (relevance_score ev) = Ok tt ->
   snd (execute_crag env query chunks log) = (log1 ++ [WebSearch query 3])%list)
  /\ (forall e, format_2f (relevance_score ev) = Raised e ->
                execute_crag env query chunks log = (Raised e, log1)).
Proof.
  intros Hev Hneeds. split.
  - intros Hfmt.
    destruct (web_search_search env query 3) as [found | e] eqn:Hfound.
    + rewrite (execute_crag_searched _ _ _ _ _ _ Hev Hfmt Hneeds Hfound). reflexivity.
    + rewrite (execute_crag_search_raises _ _ _ _ _ _ Hev Hfmt Hneeds Hfound).
      reflexivity.
  - intros e Hfmt. apply (execute_crag_format_raises _ _ _ _ _ _ Hev Hfmt).
Qed.

(** C9.  When the evaluation asks for a web search, the log line has
    formatted its score, so that the web search client is called, and the
    client raises, [execute_crag] returns no result: it raises the same
    exception. *)
Theorem web_search_failure_propagates query chunks log ev log1 e :
  evaluate_relevance env query chunks log = (Ok ev, log1) ->
  format_2f (relevance_score ev) = Ok tt ->
  needs_web_search ev = true ->
  web_search_search env query 3 = Raised e ->
  fst (execute_crag env query chunks log) = Raised e
  /\ forall r, fst (execute_crag env query chunks log) <> Ok r.
Proof.
  intros Hev Hfmt Hneeds Hfound.
  rewrite (execute_crag_search_raises _ _ _ _ _ _ Hev Hfmt Hneeds Hfound). simpl.
  split; [reflexivity | discriminate].
Qed.

End Pipeline.

(** ** Properties of [generate_answer_with_crag] *)

Section Synthesis.

Variable env : Env.

Lemma context_parts_irrelevant r :
  relevance_label (evaluation r) = JStr "irrelevant" ->
  context_parts r
  = if truthy (web_results r) then web_search_parts (default [] (web_results r)) else [].
Proof. intros H. unfold context_parts. rewrite H, eq_str_refl. reflexivity. Qed.

Lemma context_parts_otherwise r :
  relevance_label (evaluation r) <> JStr "irrelevant" ->
  context_parts r
  = (retrieved_parts (retrieved_chunks r)
     ++ (if used_web_search r && truthy (web_results r)
         then additional_web_parts (default [] (web_results r))
         else []))%list.
Proof.
  intros H. unfold context_parts.
  destruct (eq_str _ "irrelevant") eqn:E; [| reflexivity].
  apply eq_str_true in E. contradiction.
Qed.

(** The call made by [generate_answer_with_crag] is a function of the query
    and of the context parts alone. *)
Lemma generate_answer_context query r r' :
  context_parts r' = context_parts r -> generate_answer_with_crag env query r' = generate_answer_with_crag env query r.
Proof.
  intros H. unfold generate_answer_with_crag, answer_context. rewrite H. reflexivity.
Qed.

(** C5.  Under the label irrelevant the context, the prompt and the call of
    [generate_answer_with_crag] do not depend on the retrieved chunks: they
    are the same for every list of chunks put in their place.  The context is
    the web search section when there are web results, and it is empty when
    [web_results] is absent or empty. *)
Theorem irrelevant_uses_web_results_only query r :
  relevance_label (evaluation r) = JStr "irrelevant" ->
  (forall chunks,
      context_parts (with_chunks chunks r) = context_parts r
      /\ answer_prompt query (answer_context (with_chunks chunks r))
         = answer_prompt query (answer_context r)
      /\ generate_answer_with_crag env query (with_chunks chunks r) = generate_answer_with_crag env query r)
  /\ (forall result results,
        web_results r = Some (result :: results) ->
        context_parts r = web_search_parts (result :: results))
  /\ (web_results r = None \/ web_results r = Some [] ->
      context_parts r = [] /\ answer_context r = EmptyString).
Proof.
  intros Hlabel.
  assert (Hchunks : forall chunks, context_parts (with_chunks chunks r) = context_parts r).
  { intros chunks. rewrite (context_parts_irrelevant r Hlabel).
    apply (context_parts_irrelevant (with_chunks chunks r)). exact Hlabel. }
  split; [| split].
  - intros chunks. split; [apply Hchunks |]. split.
    + unfold answer_context. rewrite Hchunks. reflexivity.
    + apply generate_answer_context, Hchunks.
  - intros result results Hweb.
    rewrite (context_parts_irrelevant r Hlabel), Hweb. reflexivity.
  - intros Hweb. unfold answer_context.
    rewrite (context_parts_irrelevant r Hlabel).
    destruct Hweb as [-> | ->]; split; reflexivity.
Qed.


(** C10.  A result whose [web_results] is the empty list gives the same
    context, prompt and call as the same result with [web_results] absent:
    the empty context under the label irrelevant, and under any other label
    the retrieved documents section alone, whatever [used_web_search] is. *)
Theorem empty_web_results_as_absent query used ev chunks :
  let r_empty := {| used_web_search := used; evaluation := ev;
                    retrieved_chunks := chunks; web_results := Some [] |} in
  let r_absent := {| used_web_search := used; evaluation := ev;
                     retrieved_chunks := chunks; web_results := None |} in
  context_parts r_empty = context_parts r_absent
  /\ answer_prompt query (answer_context r_empty)
     = answer_prompt query (answer_context r_absent)
  /\ generate_answer_with_crag env query r_empty = generate_answer_with_crag env query r_absent
  /\ context_parts r_empty
     = (if eq_str (relevance_label ev) "irrelevant" then [] else retrieved_parts chunks)
  /\ (relevance_label ev = JStr "irrelevant" -> answer_context r_empty = EmptyString)
  /\ (relevance_label ev <> JStr "irrelevant" ->
      context_parts r_empty = retrieved_parts chunks).
Proof.
  intros r_empty r_absent.
  assert (Hparts : context_parts r_empty
                   = if eq_str (relevance_label ev) "irrelevant"
                     then [] else retrieved_parts chunks).
  { unfold context_parts, r_empty. simpl.
    destruct (eq_str (relevance_label ev) "irrelevant"); [reflexivity |].
    rewrite andb_false_r. unfold retrieved_parts. simpl.
    rewrite app_nil_r. reflexivity. }
  assert (Hsame : context_parts r_empty = context_parts r_absent).
  { unfold context_parts, r_empty, r_absent. simpl. reflexivity. }
  split; [exact Hsame |]. split; [unfold answer_context; rewrite Hsame; reflexivity |].
  split; [apply generate_answer_context; symmetry; exact Hsame |].
  split; [exact Hparts |]. split.
  - intros Hlabel. unfold answer_context. rewrite Hparts, Hlabel, eq_str_refl. reflexivity.
  - intros Hlabel. rewrite Hparts.
    destruct (eq_str _ "irrelevant") eqn:E; [| reflexivity].
    apply eq_str_true in E. contradiction.
Qed.

End Synthesis.

(** ** The scenarios, run *)

(** Scenario C: the [try] block returns, and the evaluation asks for a web
    search. *)
Lemma routing_decision_witness :
  evaluate_relevance_try scenario_c capital_query [capital_chunk] []
  = (Ok (evaluation_of "ambiguous" (45 # 100) true), grader_log)
  /\ needs_web_search (evaluation_of "ambiguous" (45 # 100) true) = true.
Proof.
  assert (H : evaluate_relevance_try scenario_c capital_query [capital_chunk] []
              = (Ok (evaluation_of "ambiguous" (45 # 100) true), grader_log))
    by (vm_compute; reflexivity).
  split; [exact H |].
  apply (proj1 (proj2 (proj2 (proj2 (proj2
           (routing_decision scenario_c capital_query [capital_chunk] [] _ _ H))))
           eq_refl eq_refl)).
  reflexivity.
Defined.

(** Scenario D: no web search. *)
Example routing_decision_at_06 :
  evaluate_relevance scenario_d capital_query [capital_chunk] []
  = (Ok (evaluation_of "ambiguous" (6 # 10) false), grader_log).
Proof. vm_compute. reflexivity. Qed.

(** C2, the claim as stated fails: when the completion call raises under the
    default threshold, the evaluation returned has [needs_web_search] true,
    and the routing rule at its label ambiguous and its score 0.5 gives false,
    since 0.5 is not below 0.5. *)
Lemma fallback_not_routing_rule :
  evaluate_relevance scenario_grader_down capital_query [capital_chunk] []
  = (Ok (fallback_evaluation 0), grader_log)
  /\ needs_web_search (fallback_evaluation 0)
     <> routing_rule (relevance_label (fallback_evaluation 0))
                     (relevance_score (fallback_evaluation 0))
                     (crag_ambiguous_threshold (settings scenario_grader_down)).
Proof.
  split; [vm_compute; reflexivity |].
  vm_compute. discriminate.
Qed.

Lemma needs_web_search_by_path_witness :
  evaluate_relevance scenario_c capital_query [capital_chunk] []
  = (Ok (evaluation_of "ambiguous" (45 # 100) true), grader_log)
  /\ needs_web_search (evaluation_of "ambiguous" (45 # 100) true)
     = routing_rule (JStr "ambiguous") (JNum (Finite (45 # 100))) (Finite (1 # 2)).
Proof.
  assert (H : evaluate_relevance scenario_c capital_query [capital_chunk] []
              = (Ok (evaluation_of "ambiguous" (45 # 100) true), grader_log))
    by (vm_compute; reflexivity).
  split; [exact H |].
  destruct (needs_web_search_by_path scenario_c capital_query [capital_chunk] [] _ _ H)
    as [[_ E] | [_ [E _]]].
  - exact E.
  - discriminate E.
Defined.

Lemma evaluate_relevance_never_raises_witness :
  CRAGEvaluation_accepts scenario_grader_down
    (JNum (Finite (1 # 2))) (JStr "ambiguous") (JNum (Finite (1 # 2))) = true
  /\ evaluate_relevance scenario_grader_down capital_query [capital_chunk] []
     = (Ok (fallback_evaluation 0), grader_log).
Proof.
  split; [reflexivity |].
  apply (proj1 (proj2 (evaluate_relevance_never_raises scenario_grader_down
                         capital_query [capital_chunk] [] eq_refl))
           (ServiceError "completion timed out")).
  reflexivity.
Defined.

(** A decoded answer that is not an object is handled as a failure too. *)
Example evaluate_relevance_on_a_list :
  evaluate_relevance
    (scenario (llm_answers "[]") (fun _ => Ok (JArr [])) (search_finds []))
    capital_query [capital_chunk] []
  = (Ok (fallback_evaluation 0), grader_log).
Proof. vm_compute. reflexivity. Qed.

(** So is an ambiguous label with a score that is a string. *)
Example evaluate_relevance_on_a_text_score :
  evaluate_relevance
    (scenario (llm_answers "{...}")
              (decodes_to (<["relevance_score" := JStr "high"]> ∅)) (search_finds []))
    capital_query [capital_chunk] []
  = (Ok (fallback_evaluation 0), grader_log).
Proof. vm_compute. reflexivity. Qed.

Lemma missing_fields_default_witness :
  (llm_generate_with_json scenario_label_only
     (evaluation_prompt capital_query (evaluation_context [capital_chunk]))
     evaluation_system_prompt = Ok "{...}"
   /\ json_loads scenario_label_only "{...}" = Ok (JObj (label_only "relevant"))
   /\ evaluate_relevance_try scenario_label_only capital_query [capital_chunk] []
      = (Ok label_only_evaluation, grader_log))
  /\ label_only "relevant" !! "confidence" = None
  /\ confidence label_only_evaluation = JNum (Finite (7 # 10)).
Proof.
  assert (H : evaluate_relevance_try scenario_label_only capital_query [capital_chunk] []
              = (Ok label_only_evaluation, grader_log))
    by (vm_compute; reflexivity).
  assert (Hnone : label_only "relevant" !! "confidence" = None)
    by (vm_compute; reflexivity).
  split; [split; [reflexivity | split; [reflexivity | exact H]] |].
  split; [exact Hnone |].
  apply (proj1 (proj2 (proj2 (proj2
           (missing_fields_default scenario_label_only capital_query [capital_chunk] []
              "{...}" (label_only "relevant") _ _ eq_refl eq_refl H))))
           Hnone).
Defined.

Lemma result_invariant_witness :
  execute_crag scenario_c capital_query [capital_chunk] []
  = (Ok scenario_c_result, (grader_log ++ [WebSearch capital_query 3])%list)
  /\ used_web_search scenario_c_result = needs_web_search (evaluation scenario_c_result)
  /\ (is_Some (web_results scenario_c_result)
      <-> used_web_search scenario_c_result = true).
Proof.
  assert (H : execute_crag scenario_c capital_query [capital_chunk] []
              = (Ok scenario_c_result, (grader_log ++ [WebSearch capital_query 3])%list))
    by (vm_compute; reflexivity).
  split; [exact H |].
  exact (result_invariant scenario_c capital_query [capital_chunk] [] _ _ H).
Defined.

Example execute_crag_skips_search :
  execute_crag scenario_d capital_query [capital_chunk] []
  = (Ok {| used_web_search := false;
           evaluation := evaluation_of "ambiguous" (6 # 10) false;
           retrieved_chunks := [capital_chunk];
           web_results := None |}, grader_log).
Proof. vm_compute. reflexivity. Qed.

(** A relevant label with a score that is a string, accepted by the model:
    the score cannot be formatted for the logger. *)
Example execute_crag_on_a_text_score :
  fst (execute_crag
         (scenario (llm_answers "{...}")
                   (decodes_to (<["relevance_score" := JStr "high"]>
                                  (label_only "relevant")))
                   (search_finds []))
         capital_query [capital_chunk] [])
  = Raised ValueError.
Proof. vm_compute. reflexivity. Qed.

(** An irrelevant label with the score 10^400: the evaluation asks for a web
    search, the log line raises, and the web search client is not called. *)
Example execute_crag_on_a_huge_score :
  execute_crag scenario_huge_score capital_query [capital_chunk] []
  = (Raised OverflowError, grader_log)
  /\ format_2f (JNum (Finite (inject_Z (2 ^ 1023)))) = Ok tt
  /\ format_2f (JNum (Finite (inject_Z (2 ^ 1024 - 2 ^ 970 - 1)))) = Ok tt
  /\ format_2f (JNum (Finite (inject_Z (2 ^ 1024 - 2 ^ 970)))) = Raised OverflowError
  /\ format_2f (JNum (Finite (inject_Z (- 10 ^ 400)))) = Raised OverflowError.
Proof. vm_compute. repeat split. Qed.

(** A search that finds nothing leaves [used_web_search] true and
    [web_results] present and empty. *)
Example execute_crag_empty_search :
  execute_crag
    (scenario (llm_answers "{...}") (decodes_to (graded "ambiguous" (45 # 100)))
              (search_finds []))
    capital_query [capital_chunk] []
  = (Ok {| used_web_search := true;
           evaluation := evaluation_of "ambiguous" (45 # 100) true;
           retrieved_chunks := [capital_chunk];
           web_results := Some [] |},
     (grader_log ++ [WebSearch capital_query 3])%list).
Proof. vm_compute. reflexivity. Qed.

(** C8, the claim as stated fails: under a configuration whose
    [max_web_results] is 5, the search is still called with the bound 3. *)
Lemma bound_not_configured :
  max_web_results five_results_configuration = 5%Z
  /\ snd (execute_crag
            (scenario_with
               (settings_of five_results_configuration "openai-key" "tavily-key")
               llm_fails (decodes_to ∅) (search_finds [capital_page]))
            capital_query [capital_chunk] [])
     = (grader_log ++ [WebSearch capital_query 3])%list
  /\ WebSearch capital_query 3
     <> WebSearch capital_query (max_web_results five_results_configuration).
Proof.
  split; [reflexivity |]. split; [vm_compute; reflexivity |].
  simpl. intros H. inversion H.
Qed.

Lemma web_search_bound_witness :
  (evaluate_relevance scenario_grader_down capital_query [capital_chunk] []
   = (Ok (fallback_evaluation 0), grader_log)
   /\ format_2f (relevance_score (fallback_evaluation 0)) = Ok tt
   /\ needs_web_search (fallback_evaluation 0) = true)
  /\ snd (execute_crag scenario_grader_down capital_query [capital_chunk] [])
     = (grader_log ++ [WebSearch capital_query 3])%list.
Proof.
  assert (H : evaluate_relevance scenario_grader_down capital_query [capital_chunk] []
              = (Ok (fallback_evaluation 0), grader_log))
    by (vm_compute; reflexivity).
  split; [split; [exact H | split; reflexivity] |].
  exact (proj1 (web_search_bound scenario_grader_down capital_query [capital_chunk] []
                  (fallback_evaluation 0) grader_log H eq_refl) eq_refl).
Defined.

Lemma web_search_failure_propagates_witness :
  (evaluate_relevance scenario_search_down capital_query [capital_chunk] []
   = (Ok (evaluation_of "irrelevant" (2 # 10) true), grader_log)
   /\ format_2f (relevance_score (evaluation_of "irrelevant" (2 # 10) true)) = Ok tt
   /\ needs_web_search (evaluation_of "irrelevant" (2 # 10) true) = true
   /\ web_search_search scenario_search_down capital_query 3
      = Raised (ServiceError "search unavailable"))
  /\ fst (execute_crag scenario_search_down capital_query [capital_chunk] [])
     = Raised (ServiceError "search unavailable").
Proof.
  assert (H : evaluate_relevance scenario_search_down capital_query [capital_chunk] []
              = (Ok (evaluation_of "irrelevant" (2 # 10) true), grader_log))
    by (vm_compute; reflexivity).
  split; [split; [exact H | split; [reflexivity | split; reflexivity]] |].
  exact (proj1 (web_search_failure_propagates scenario_search_down
                  capital_query [capital_chunk] []
                  (evaluation_of "irrelevant" (2 # 10) true) grader_log
                  (ServiceError "search unavailable") H eq_refl eq_refl eq_refl)).
Defined.

Lemma irrelevant_uses_web_results_only_witness :
  relevance_label (evaluation irrelevant_empty_result) = JStr "irrelevant"
  /\ context_parts irrelevant_empty_result = []
  /\ answer_context irrelevant_empty_result = EmptyString.
Proof.
  split; [reflexivity |].
  exact (proj2 (proj2 (irrelevant_uses_web_results_only scenario_c capital_query
                         irrelevant_empty_result eq_refl))
           (or_intror eq_refl)).
Defined.


Example context_of_scenario_c :
  context_parts scenario_c_result
  = [ "=== Retrieved Documents ===";
      nl +:+ "Document 1:" +:+ nl +:+ "Paris is the capital of France.";
      nl +:+ nl +:+ "=== Additional Web Information ===";
      nl +:+ "Web Source 1:" +:+ nl +:+ "The capital of France is Paris." ].
Proof. vm_compute. reflexivity. Qed.

(** Numbered maps over two lists agree when they agree on each pair. *)
Lemma imap_Forall2_ext {A B} (P : A -> A -> Prop) (f : nat -> A -> B) l l' :
  Forall2 P l l' ->
  (forall i a a', P a a' -> f i a = f i a') ->
  imap f l = imap f l'.
Proof.
  intros H. revert f.
  induction H as [| a a' l l' Ha _ IH]; intros f Hf; simpl; [reflexivity |].
  f_equal; [apply Hf; exact Ha |]. apply IH. intros i b b' Hb. apply Hf. exact Hb.
Qed.

(** ** Further properties of [evaluate_relevance] *)

Section EvaluationEdges.

Variable env : Env.

Local Abbreviation grader_call query chunks :=
  (LLMGenerateWithJson (evaluation_prompt query (evaluation_context chunks))
                       evaluation_system_prompt).
Local Abbreviation grader_answer query chunks :=
  (llm_generate_with_json env (evaluation_prompt query (evaluation_context chunks))
                          evaluation_system_prompt).
Local Abbreviation fallback_accepted :=
  (CRAGEvaluation_accepts env (JNum (Finite (1 # 2))) (JStr "ambiguous")
                          (JNum (Finite (1 # 2))) = true).

(** The log that [evaluate_relevance] leaves, on every path. *)
Lemma evaluate_relevance_log query chunks log :
  snd (evaluate_relevance env query chunks log)
  = (log ++ [grader_call query chunks])%list.
Proof.
  unfold evaluate_relevance, try_except.
  destruct (evaluate_relevance_try env query chunks log) as [[ev | e] log1] eqn:Htry;
    apply evaluate_relevance_try_log in Htry; subst log1; [reflexivity |].
  unfold evaluate_relevance_except.
  destruct (new_CRAGEvaluation _ _ _ _ _ _ _ _) as [r log2] eqn:Hnew.
  apply new_CRAGEvaluation_run in Hnew as [-> _]. reflexivity.
Qed.

(** X1.  Whatever happens, [evaluate_relevance] makes one call, the
    structured completion call on the evaluation prompt: it never calls the
    web search client nor the answer generator, and a failure does not make
    it call again. *)
Theorem evaluate_relevance_single_call query chunks log r log' :
  evaluate_relevance env query chunks log = (r, log') ->
  log' = (log ++ [LLMGenerateWithJson
                    (evaluation_prompt query (evaluation_context chunks))
                    evaluation_system_prompt])%list.
Proof.
  intros H. pose proof (evaluate_relevance_log query chunks log) as Hlog.
  rewrite H in Hlog. exact Hlog.
Qed.

(** X2.  Under the ambiguous label the comparison with the threshold is
    strict: for a finite score and a finite threshold, the evaluation asks for
    a web search exactly when the score is below the threshold, so a score
    equal to the threshold asks for none. *)
Theorem ambiguous_score_strictly_below query chunks log ev log' x t :
  evaluate_relevance_try env query chunks log = (Ok ev, log') ->
  relevance_label ev = JStr "ambiguous" ->
  relevance_score ev = JNum (Finite x) ->
  crag_ambiguous_threshold (settings env) = Finite t ->
  (needs_web_search ev = true <-> (x < t)%Q)
  /\ ((x == t)%Q -> needs_web_search ev = false).
Proof.
  intros Htry Hl Hs Ht.
  apply evaluate_relevance_try_Ok in Htry
    as (_ & _ & _ & _ & _ & _ & _ & _ & Hroute & _).
  apply routing_Ok in Hroute. rewrite Hl, Hs, Ht in Hroute.
  change (needs_web_search ev = negb (Qle_bool t x)) in Hroute.
  assert (Hiff : needs_web_search ev = true <-> (x < t)%Q).
  { rewrite Hroute, negb_true_iff, <- not_true_iff_false, Qle_bool_iff.
    split; [apply Qnot_le_lt | apply Qlt_not_le]. }
  split; [exact Hiff |].
  intros Heq. apply not_true_iff_false. rewrite Hiff, Heq. apply Qlt_irrefl.
Qed.

(** X3.  Every comparison with NaN is false: under the ambiguous label, a
    score that is NaN, or a threshold that is NaN, asks for no web search. *)
Theorem nan_never_searches query chunks log ev log' :
  evaluate_relevance_try env query chunks log = (Ok ev, log') ->
  relevance_label ev = JStr "ambiguous" ->
  relevance_score ev = JNum NaN \/ crag_ambiguous_threshold (settings env) = NaN ->
  needs_web_search ev = false.
Proof.
  intros Htry Hl Hnan.
  apply evaluate_relevance_try_Ok in Htry
    as (_ & _ & _ & _ & _ & _ & _ & _ & Hroute & _).
  unfold routing, lt in Hroute. rewrite Hl in Hroute. simpl in Hroute.
  destruct Hnan as [Hs | Ht].
  - rewrite Hs in Hroute. simpl in Hroute. inversion Hroute. reflexivity.
  - rewrite Ht in Hroute.
    destruct (as_number (relevance_score ev)) as [[] |]; inversion Hroute; reflexivity.
Qed.

(** X4.  Raising the threshold never withdraws a web search: a label and a
    score that route to a search under a finite threshold route to a search
    under every greater one. *)
Theorem raising_threshold_keeps_search (env' : Env) label score t t' :
  crag_ambiguous_threshold (settings env) = Finite t ->
  crag_ambiguous_threshold (settings env') = Finite t' ->
  (t <= t')%Q ->
  routing env label score = Ok true ->
  routing env' label score = Ok true.
Proof.
  unfold routing, lt. intros -> -> Hle.
  destruct (eq_str label "irrelevant"); [trivial |].
  destruct (eq_str label "ambiguous"); [| trivial].
  destruct (as_number score) as [[x | | |] |]; simpl; try (intros H; exact H).
  unfold Qltb. intros H. injection H as Hlt. f_equal.
  apply negb_true_iff, not_true_iff_false in Hlt.
  rewrite Qle_bool_iff in Hlt. apply Qnot_le_lt in Hlt.
  apply negb_true_iff, not_true_iff_false. rewrite Qle_bool_iff.
  apply Qlt_not_le. eapply Qlt_le_trans; eassumption.
Qed.

(** X5.  Of the settings, the service reads [crag_ambiguous_threshold] and
    nothing else: under other settings with the same threshold,
    [crag_relevance_threshold] included, the three methods behave the same. *)
Theorem other_settings_do_not_matter (s : Settings) query chunks r log :
  crag_ambiguous_threshold s = crag_ambiguous_threshold (settings env) ->
  evaluate_relevance (with_settings s env) query chunks log
  = evaluate_relevance env query chunks log
  /\ execute_crag (with_settings s env) query chunks log
     = execute_crag env query chunks log
  /\ generate_answer_with_crag (with_settings s env) query r log
     = generate_answer_with_crag env query r log.
Proof.
  intros Hthr.
  assert (Hev : forall l, evaluate_relevance (with_settings s env) query chunks l
                          = evaluate_relevance env query chunks l).
  { intros l. unfold evaluate_relevance, try_except, evaluate_relevance_try,
      evaluate_relevance_except, new_CRAGEvaluation, routing, bind. simpl.
    rewrite Hthr. reflexivity. }
  split; [apply Hev |]. split; [| reflexivity].
  unfold execute_crag, bind. rewrite Hev. reflexivity.
Qed.

(** The cut keeps a prefix of the text. *)
Lemma prefix_code_points_prefix n s :
  exists rest, s = prefix_code_points n s +:+ rest.
Proof.
  revert n. induction s as [| c s IH]; intros n; simpl.
  - exists EmptyString. reflexivity.
  - destruct (is_continuation c).
    + destruct (IH n) as [rest Hrest]. exists rest. rewrite Hrest at 1. reflexivity.
    + destruct n as [| n].
      * exists (String c s). reflexivity.
      * destruct (IH n) as [rest Hrest]. exists rest. rewrite Hrest at 1. reflexivity.
Qed.

(** X6.  The grader sees the first 300 code points of each chunk and nothing
    else of it: two chunk lists of the same length whose contents agree on
    their first 300 code points, whatever their metadata and scores, get the
    same evaluation through the same call. *)
Theorem grader_sees_300_characters query chunks chunks' log :
  Forall2 (fun c c' => prefix_code_points 300 (content c)
                       = prefix_code_points 300 (content c'))
          chunks chunks' ->
  evaluate_relevance env query chunks log = evaluate_relevance env query chunks' log
  /\ snd (evaluate_relevance env query chunks log)
     = (log ++ [LLMGenerateWithJson
                  (evaluation_prompt query
                     (join (nl +:+ nl)
                        (imap (fun i chunk =>
                                 "Chunk " +:+ fmt (i + 1) +:+ ": "
                                 +:+ prefix_code_points 300 (content chunk))
                              chunks')))
                  evaluation_system_prompt])%list.
Proof.
  intros Hsame.
  assert (Hctx : evaluation_context chunks = evaluation_context chunks').
  { unfold evaluation_context. f_equal.
    apply (imap_Forall2_ext _ _ _ _ Hsame).
    intros i c c' Hc. simpl in Hc. rewrite Hc. reflexivity. }
  split.
  - unfold evaluate_relevance, evaluate_relevance_try. rewrite Hctx. reflexivity.
  - rewrite evaluate_relevance_log, Hctx. reflexivity.
Qed.

End EvaluationEdges.

Section EvaluationFailures.

Variable env : Env.

Local Abbreviation grader_call query chunks :=
  (LLMGenerateWithJson (evaluation_prompt query (evaluation_context chunks))
                       evaluation_system_prompt).
Local Abbreviation grader_answer query chunks :=
  (llm_generate_with_json env (evaluation_prompt query (evaluation_context chunks))
                          evaluation_system_prompt).

(** A raising [try] body hands over to the fallback. *)
Lemma evaluate_relevance_falls_back query chunks log e log' :
  CRAGEvaluation_accepts env (JNum (Finite (1 # 2))) (JStr "ambiguous")
                         (JNum (Finite (1 # 2))) = true ->
  evaluate_relevance_try env query chunks log = (Raised e, log') ->
  evaluate_relevance env query chunks log
  = (Ok (fallback_evaluation (utcnow env)), (log ++ [grader_call query chunks])%list).
Proof.
  intros Hacc Htry.
  pose proof (evaluate_relevance_try_log _ _ _ _ _ _ Htry) as ->.
  unfold evaluate_relevance. rewrite (try_except_Raised _ _ _ _ _ Htry).
  apply evaluate_relevance_except_run. exact Hacc.
Qed.

(** X7.  An answer that decodes to something other than an object (a list,
    a string, a number, a boolean, null) is handled as a failure: the lookup
    of the first field raises, and the fallback is returned. *)
Theorem non_object_answer_falls_back query chunks log response v :
  CRAGEvaluation_accepts env (JNum (Finite (1 # 2))) (JStr "ambiguous")
                         (JNum (Finite (1 # 2))) = true ->
  grader_answer query chunks = Ok response ->
  json_loads env response = Ok v ->
  (forall fields, v <> JObj fields) ->
  evaluate_relevance env query chunks log
  = (Ok (fallback_evaluation (utcnow env)), (log ++ [grader_call query chunks])%list).
Proof.
  intros Hacc Hllm Hjson Hshape.
  apply (evaluate_relevance_falls_back _ _ _ AttributeError
           (log ++ [grader_call query chunks])%list Hacc).
  unfold evaluate_relevance_try, bind, invoke, lift. rewrite Hllm, Hjson.
  destruct v; try reflexivity. exfalso. eapply Hshape. reflexivity.
Qed.

(** X8.  Under the ambiguous label, given or defaulted, a score that is not a
    number (null, a string, a list, an object) makes the comparison raise:
    the fallback is returned, with [needs_web_search] true. *)
Theorem ambiguous_non_numeric_score_falls_back query chunks log response fields s :
  CRAGEvaluation_accepts env (JNum (Finite (1 # 2))) (JStr "ambiguous")
                         (JNum (Finite (1 # 2))) = true ->
  grader_answer query chunks = Ok response ->
  json_loads env response = Ok (JObj fields) ->
  default (JStr "ambiguous") (fields !! "relevance_label") = JStr "ambiguous" ->
  fields !! "relevance_score" = Some s ->
  as_number s = None ->
  evaluate_relevance env query chunks log
  = (Ok (fallback_evaluation (utcnow env)), (log ++ [grader_call query chunks])%list).
Proof.
  intros Hacc Hllm Hjson Hl Hs Hnum.
  apply (evaluate_relevance_falls_back _ _ _ TypeError
           (log ++ [grader_call query chunks])%list Hacc).
  unfold evaluate_relevance_try, bind, invoke, lift, get, routing, lt.
  rewrite Hllm, Hjson, Hl, Hs. simpl. rewrite Hnum. reflexivity.
Qed.

(** X9.  Under any label other than ambiguous the score is never compared:
    whatever the score is, a number or not, the [try] block returns as soon
    as the model accepts the fields, and [needs_web_search] is true exactly
    for the label irrelevant. *)
Theorem score_unread_outside_ambiguous query chunks log response fields :
  let s := default (JNum (Finite (1 # 2))) (fields !! "relevance_score") in
  let l := default (JStr "ambiguous") (fields !! "relevance_label") in
  let c := default (JNum (Finite (7 # 10))) (fields !! "confidence") in
  grader_answer query chunks = Ok response ->
  json_loads env response = Ok (JObj fields) ->
  l <> JStr "ambiguous" ->
  CRAGEvaluation_accepts env s l c = true ->
  evaluate_relevance env query chunks log
  = (Ok {| relevance_score := s; relevance_label := l; confidence := c;
           evaluation_method := "llm_grader";
           needs_web_search := eq_str l "irrelevant";
           evaluated_at := utcnow env |},
     (log ++ [grader_call query chunks])%list).
Proof.
  intros s l c Hllm Hjson Hl Hacc.
  apply try_except_Ok.
  apply (evaluate_relevance_try_returns env query chunks log response fields
           (eq_str l "irrelevant") Hllm Hjson); [| exact Hacc].
  fold l s. unfold routing.
  destruct (eq_str l "irrelevant"); [reflexivity |].
  destruct (eq_str l "ambiguous") eqn:E; [| reflexivity].
  apply eq_str_true in E. contradiction.
Qed.

(** X10.  An object with neither a label nor a score is graded ambiguous at
    0.5 and routed by the rule: it asks for a web search exactly when 0.5 is
    below the threshold, so not under the default threshold, unlike the
    fallback, which always asks for one. *)
Theorem missing_label_and_score query chunks log response fields :
  let c := default (JNum (Finite (7 # 10))) (fields !! "confidence") in
  grader_answer query chunks = Ok response ->
  json_loads env response = Ok (JObj fields) ->
  fields !! "relevance_score" = None ->
  fields !! "relevance_label" = None ->
  CRAGEvaluation_accepts env (JNum (Finite (1 # 2))) (JStr "ambiguous") c = true ->
  evaluate_relevance env query chunks log
  = (Ok {| relevance_score := JNum (Finite (1 # 2));
           relevance_label := JStr "ambiguous";
           confidence := c;
           evaluation_method := "llm_grader";
           needs_web_search :=
             number_ltb (Finite (1 # 2)) (crag_ambiguous_threshold (settings env));
           evaluated_at := utcnow env |},
     (log ++ [grader_call query chunks])%list)
  /\ (crag_ambiguous_threshold (settings env) = Finite (1 # 2) ->
      number_ltb (Finite (1 # 2)) (crag_ambiguous_threshold (settings env)) = false).
Proof.
  intros c Hllm Hjson Hs Hl Hacc. split; [| intros ->; reflexivity].
  apply try_except_Ok.
  pose proof (evaluate_relevance_try_returns env query chunks log response fields
                (number_ltb (Finite (1 # 2)) (crag_ambiguous_threshold (settings env)))
                Hllm Hjson) as H.
  rewrite Hs, Hl in H. simpl in H. apply H; [reflexivity | exact Hacc].
Qed.

(** X11.  Every evaluation returned, on either path, carries the method
    [llm_grader], the reading of the clock, and field values that the model
    has accepted. *)
Theorem evaluation_stamp query chunks log ev log' :
  evaluate_relevance env query chunks log = (Ok ev, log') ->
  evaluation_method ev = "llm_grader"
  /\ evaluated_at ev = utcnow env
  /\ CRAGEvaluation_accepts env (relevance_score ev) (relevance_label ev)
                            (confidence ev) = true.
Proof.
  unfold evaluate_relevance, try_except.
  destruct (evaluate_relevance_try env query chunks log) as [[ev0 | e] log1] eqn:Htry.
  - intros H. inversion H; subst ev0 log1.
    apply evaluate_relevance_try_Ok in Htry
      as (_ & _ & _ & _ & _ & _ & _ & Hm & _ & Ht & Hacc).
    split; [exact Hm |]. split; [exact Ht | exact Hacc].
  - unfold evaluate_relevance_except. intros H.
    apply new_CRAGEvaluation_run in H as [_ H].
    destruct (CRAGEvaluation_accepts env _ _ _) eqn:Hacc; [| discriminate H].
    inversion H. simpl. split; [reflexivity |]. split; [reflexivity | exact Hacc].
Qed.

End EvaluationFailures.

(** ** Further properties of [execute_crag] *)

(** Without a web search, and off the label irrelevant, the context is the
    retrieved documents section. *)
Lemma context_parts_unsearched r :
  used_web_search r = false ->
  relevance_label (evaluation r) <> JStr "irrelevant" ->
  context_parts r = retrieved_parts (retrieved_chunks r).
Proof.
  intros Hused Hne. rewrite (context_parts_otherwise r Hne), Hused. apply app_nil_r.
Qed.


Section PipelineEdges.

Variable env : Env.

Local Abbreviation grader_call query chunks :=
  (LLMGenerateWithJson (evaluation_prompt query (evaluation_context chunks))
                       evaluation_system_prompt).

(** What [execute_crag] does, by what the evaluation gives. *)
Lemma execute_crag_cases query chunks log :
  let log1 := (log ++ [grader_call query chunks])%list in
  (exists e, evaluate_relevance env query chunks log = (Raised e, log1)
             /\ execute_crag env query chunks log = (Raised e, log1))
  \/ (exists ev e, evaluate_relevance env query chunks log = (Ok ev, log1)
                   /\ format_2f (relevance_score ev) = Raised e
                   /\ execute_crag env query chunks log = (Raised e, log1))
  \/ (exists ev, evaluate_relevance env query chunks log = (Ok ev, log1)
                 /\ format_2f (relevance_score ev) = Ok tt
                 /\ needs_web_search ev = false
                 /\ execute_crag env query chunks log
                    = (Ok {| used_web_search := false; evaluation := ev;
                             retrieved_chunks := chunks; web_results := None |}, log1))
  \/ (exists ev, evaluate_relevance env query chunks log = (Ok ev, log1)
                 /\ format_2f (relevance_score ev) = Ok tt
                 /\ needs_web_search ev = true
                 /\ ((exists found,
                        web_search_search env query 3 = Ok found
                        /\ execute_crag env query chunks log
                           = (Ok {| used_web_search := true; evaluation := ev;
                                    retrieved_chunks := chunks;
                                    web_results := Some found |},
                              (log1 ++ [WebSearch query 3])%list))
                     \/ (exists e,
                           web_search_search env query 3 = Raised e
                           /\ execute_crag env query chunks log
                              = (Raised e, (log1 ++ [WebSearch query 3])%list)))).
Proof.
  intros log1.
  pose proof (evaluate_relevance_log env query chunks log) as Hlog.
  destruct (evaluate_relevance env query chunks log) as [[ev | e] l] eqn:Hev;
    simpl in Hlog; subst l; fold log1 in Hev.
  - destruct (format_2f (relevance_score ev)) as [[] | e] eqn:Hfmt.
    + destruct (needs_web_search ev) eqn:Hneeds.
      * right; right; right. exists ev. repeat (split; [reflexivity || assumption |]).
        destruct (web_search_search env query 3) as [found | e] eqn:Hfound.
        -- left. exists found. split; [reflexivity |].
           apply (execute_crag_searched env _ _ _ _ _ _ Hev Hfmt Hneeds Hfound).
        -- right. exists e. split; [reflexivity |].
           apply (execute_crag_search_raises env _ _ _ _ _ _ Hev Hfmt Hneeds Hfound).
      * right; right; left. exists ev. repeat (split; [reflexivity || assumption |]).
        apply (execute_crag_skipped env _ _ _ _ _ Hev Hfmt Hneeds).
    + right; left. exists ev, e. repeat (split; [reflexivity || assumption |]).
      apply (execute_crag_format_raises env _ _ _ _ _ _ Hev Hfmt).
  - left. exists e. split; [reflexivity |].
    unfold execute_crag. apply bind_fail. exact Hev.
Qed.

(** X12.  [execute_crag] calls the grader once and then the web search at
    most once, with the bound 3; it never calls the answer generator.  When
    the evaluation asks for no web search, the web search client is not
    called and the result has no web results. *)
Theorem execute_crag_calls query chunks log :
  let log1 := (log ++ [grader_call query chunks])%list in
  (snd (execute_crag env query chunks log) = log1
   \/ snd (execute_crag env query chunks log) = (log1 ++ [WebSearch query 3])%list)
  /\ (forall ev l,
        evaluate_relevance env query chunks log = (Ok ev, l) ->
        needs_web_search ev = false ->
        snd (execute_crag env query chunks log) = log1
        /\ forall r, fst (execute_crag env query chunks log) = Ok r ->
                     web_results r = None /\ used_web_search r = false).
Proof.
  intros log1.
  destruct (execute_crag_cases query chunks log)
    as [(e & Hev & Hx) | [(ev & e & Hev & _ & Hx) | [(ev & Hev & _ & Hn & Hx)
        | (ev & Hev & _ & Hn & [(found & _ & Hx) | (e & _ & Hx)])]]];
    fold log1 in Hev, Hx; rewrite Hx; simpl;
    (split; [auto |]); intros ev' l Hev' Hn'; rewrite Hev in Hev';
    inversion Hev'; subst; try congruence.
  - split; [reflexivity | discriminate].
  - split; [reflexivity |]. intros r Hr. inversion Hr. split; reflexivity.
Qed.

(** X13.  A result returned by [execute_crag] holds the chunks it was given,
    unchanged and in order, and the evaluation that [evaluate_relevance]
    returned on them. *)
Theorem execute_crag_passes_through query chunks log r log' :
  execute_crag env query chunks log = (Ok r, log') ->
  retrieved_chunks r = chunks
  /\ fst (evaluate_relevance env query chunks log) = Ok (evaluation r).
Proof.
  intros H.
  destruct (execute_crag_cases query chunks log)
    as [(e & Hev & Hx) | [(ev & e & Hev & _ & Hx) | [(ev & Hev & _ & Hn & Hx)
        | (ev & Hev & _ & Hn & [(found & _ & Hx) | (e & _ & Hx)])]]];
    rewrite Hx in H; try discriminate H;
    inversion H; subst r; rewrite Hev; split; reflexivity.
Qed.

(** X14.  When the grader fails, the pipeline still answers from both
    sources: anything raised inside the [try] leads to a web search, and when
    the search returns, the result has the fallback evaluation, the chunks
    and the pages found, and its context is the retrieved documents followed
    by the additional web section, if a page was found. *)
Theorem grader_failure_searches query chunks log e log' found :
  CRAGEvaluation_accepts env (JNum (Finite (1 # 2))) (JStr "ambiguous")
                         (JNum (Finite (1 # 2))) = true ->
  evaluate_relevance_try env query chunks log = (Raised e, log') ->
  web_search_search env query 3 = Ok found ->
  let r := {| used_web_search := true;
              evaluation := fallback_evaluation (utcnow env);
              retrieved_chunks := chunks;
              web_results := Some found |} in
  execute_crag env query chunks log
  = (Ok r, (log ++ [grader_call query chunks; WebSearch query 3])%list)
  /\ context_parts r
     = (retrieved_parts chunks
        ++ match found with
           | [] => []
           | _ :: _ => additional_web_parts found
           end)%list.
Proof.
  intros Hacc Htry Hfound r. split.
  - pose proof (evaluate_relevance_falls_back env _ _ _ _ _ Hacc Htry) as Hev.
    rewrite (execute_crag_searched env _ _ _ _ _ _ Hev eq_refl eq_refl Hfound).
    rewrite <- app_assoc. reflexivity.
  - unfold context_parts, r. simpl. destruct found; reflexivity.
Qed.

(** X15.  An evaluation whose score is not a number stops the pipeline at
    the log line, before any routing: [execute_crag] raises, a [ValueError]
    for a string and a [TypeError] otherwise, and the web search client is
    not called even when the evaluation asks for a search. *)
Theorem unformattable_score_stops_pipeline query chunks log ev log1 :
  evaluate_relevance env query chunks log = (Ok ev, log1) ->
  as_number (relevance_score ev) = None ->
  execute_crag env query chunks log
  = (Raised (match relevance_score ev with
             | JStr _ => ValueError
             | _ => TypeError
             end), log1).
Proof.
  intros Hev Hnum.
  apply (execute_crag_format_raises env _ _ _ _ _ _ Hev).
  destruct (relevance_score ev) as [| [] | | | |]; try discriminate Hnum; reflexivity.
Qed.

(** X16.  A label that is neither irrelevant nor ambiguous, be it relevant,
    another string, or not a string, is served from the chunks alone: when
    the score formats at the log line (a float, a bool, an int that converts
    to a float), [execute_crag] returns without calling the web search
    client, and the context of the answer is the retrieved documents
    section. *)
Theorem other_labels_use_chunks_only query chunks log ev log1 :
  evaluate_relevance_try env query chunks log = (Ok ev, log1) ->
  relevance_label ev <> JStr "irrelevant" ->
  relevance_label ev <> JStr "ambiguous" ->
  format_2f (relevance_score ev) = Ok tt ->
  let r := {| used_web_search := false; evaluation := ev;
              retrieved_chunks := chunks; web_results := None |} in
  execute_crag env query chunks log = (Ok r, log1)
  /\ log1 = (log ++ [grader_call query chunks])%list
  /\ context_parts r = retrieved_parts chunks.
Proof.
  intros Htry Hirr Hamb Hfmt r.
  pose proof (evaluate_relevance_try_log _ _ _ _ _ _ Htry) as Hlog.
  pose proof (try_except_Ok _ (evaluate_relevance_except env) _ _ _ Htry) as Hev.
  fold (evaluate_relevance env query chunks) in Hev.
  apply evaluate_relevance_try_Ok in Htry
    as (_ & _ & _ & _ & _ & _ & _ & _ & Hroute & _).
  assert (Hneeds : needs_web_search ev = false).
  { unfold routing in Hroute.
    destruct (eq_str (relevance_label ev) "irrelevant") eqn:E1;
      [apply eq_str_true in E1; contradiction |].
    destruct (eq_str (relevance_label ev) "ambiguous") eqn:E2;
      [apply eq_str_true in E2; contradiction |].
    inversion Hroute. reflexivity. }
  split; [apply (execute_crag_skipped env _ _ _ _ _ Hev Hfmt Hneeds) |].
  split; [exact Hlog |].
  apply (context_parts_unsearched r eq_refl Hirr).
Qed.

(** X17.  What the answer is built from, for any result that [execute_crag]
    returns.  Under the label irrelevant a web search has been made, and the
    context is the web search section over the pages found, or empty when
    none was found: the chunks are left out.  When no web search was made,
    the context is the retrieved documents section alone. *)
Theorem pipeline_context query chunks log r log' :
  execute_crag env query chunks log = (Ok r, log') ->
  (relevance_label (evaluation r) = JStr "irrelevant" ->
   used_web_search r = true
   /\ exists found,
        web_search_search env query 3 = Ok found
        /\ web_results r = Some found
        /\ context_parts r = match found with
                             | [] => []
                             | _ :: _ => web_search_parts found
                             end)
  /\ (used_web_search r = false ->
      relevance_label (evaluation r) <> JStr "irrelevant"
      /\ context_parts r = retrieved_parts chunks).
Proof.
  intros H.
  assert (Hirr : forall ev l,
             evaluate_relevance env query chunks log = (Ok ev, l) ->
             relevance_label ev = JStr "irrelevant" -> needs_web_search ev = true).
  { intros ev l Hev Hl. apply evaluate_relevance_Ok in Hev as [Htry | [_ ->]].
    - apply evaluate_relevance_try_Ok in Htry
        as (_ & _ & _ & _ & _ & _ & _ & _ & Hroute & _).
      apply routing_Ok in Hroute. rewrite Hroute, Hl. reflexivity.
    - reflexivity. }
  destruct (execute_crag_cases query chunks log)
    as [(e & Hev & Hx) | [(ev & e & Hev & _ & Hx) | [(ev & Hev & _ & Hn & Hx)
        | (ev & Hev & _ & Hn & [(found & Hfound & Hx) | (e & _ & Hx)])]]];
    rewrite Hx in H; try discriminate H; inversion H; subst r; simpl.
  - split.
    + intros Hl. rewrite (Hirr _ _ Hev Hl) in Hn. discriminate Hn.
    + intros _.
      assert (Hne : relevance_label ev <> JStr "irrelevant").
      { intros Hl. rewrite (Hirr _ _ Hev Hl) in Hn. discriminate Hn. }
      split; [exact Hne |].
      apply (context_parts_unsearched
               {| used_web_search := false; evaluation := ev;
                  retrieved_chunks := chunks; web_results := None |} eq_refl Hne).
  - split; [| discriminate].
    intros Hl. split; [reflexivity |]. exists found.
    split; [exact Hfound |]. split; [reflexivity |].
    unfold context_parts. simpl. rewrite Hl, eq_str_refl.
    destruct found; reflexivity.
Qed.

End PipelineEdges.

(** ** Further properties of [generate_answer_with_crag] *)

(** A joined list that starts with a non-empty part is not empty. *)
Lemma join_cons_nonempty sep a part parts :
  join sep (String a part :: parts) <> EmptyString.
Proof. unfold join. destruct parts; simpl; discriminate. Qed.

(** The two lists of web results are both empty or both not. *)
Lemma truthy_Forall2 (P : WebResult -> WebResult -> Prop) ws ws' :
  Forall2 P ws ws' -> truthy (Some ws) = truthy (Some ws').
Proof. intros H. destruct H; reflexivity. Qed.

Section SynthesisEdges.

(** X18.  Under the label irrelevant the flag [used_web_search] is not
    read: web results that are there are used whatever the flag says, also
    when it is false. *)
Theorem irrelevant_ignores_used_web_search used ev chunks result results :
  relevance_label ev = JStr "irrelevant" ->
  context_parts {| used_web_search := used; evaluation := ev;
                   retrieved_chunks := chunks;
                   web_results := Some (result :: results) |}
  = web_search_parts (result :: results).
Proof.
  intros Hl. unfold context_parts. simpl. rewrite Hl, eq_str_refl. reflexivity.
Qed.

(** X19.  Under any other label, web results are read only when
    [used_web_search] is true: with the flag false, the context is the
    retrieved documents section whatever [web_results] holds. *)
Theorem unused_web_results_are_ignored ev chunks web :
  relevance_label ev <> JStr "irrelevant" ->
  context_parts {| used_web_search := false; evaluation := ev;
                   retrieved_chunks := chunks; web_results := web |}
  = retrieved_parts chunks.
Proof.
  intros Hne.
  apply (context_parts_unsearched
           {| used_web_search := false; evaluation := ev;
              retrieved_chunks := chunks; web_results := web |} eq_refl Hne).
Qed.

(** X20.  The context of the answer is empty in one case only: the label is
    irrelevant and there is no web result.  In every other case it starts
    with a section header. *)
Theorem context_empty_iff r :
  (answer_context r = EmptyString <-> context_parts r = [])
  /\ (context_parts r = [] <->
      relevance_label (evaluation r) = JStr "irrelevant"
      /\ truthy (web_results r) = false).
Proof.
  assert (Hparts : context_parts r = [] <->
                   relevance_label (evaluation r) = JStr "irrelevant"
                   /\ truthy (web_results r) = false).
  { unfold context_parts.
    destruct (eq_str (relevance_label (evaluation r)) "irrelevant") eqn:E.
    - apply eq_str_true in E.
      destruct (truthy (web_results r)); unfold web_search_parts;
        split; try discriminate; try (intros [_ H]; discriminate H); auto.
    - split; [unfold retrieved_parts; discriminate |].
      intros [Hl _]. apply eq_str_true in Hl. congruence. }
  split; [| exact Hparts].
  split; [| intros H; unfold answer_context; rewrite H; reflexivity].
  unfold answer_context, context_parts.
  destruct (eq_str (relevance_label (evaluation r)) "irrelevant").
  - destruct (truthy (web_results r)); [| reflexivity].
    intros H. exfalso. revert H. apply join_cons_nonempty.
  - intros H. exfalso. revert H. apply join_cons_nonempty.
Qed.

(** X21.  Of a web result, the prompt gets the content, the title under the
    label irrelevant only, and never the source: web results that agree on
    title and content give the same context under every label, and under a
    label other than irrelevant it is enough that they agree on content. *)
Theorem web_result_fields_read used ev chunks results results' :
  let context_with web := context_parts {| used_web_search := used; evaluation := ev;
                                           retrieved_chunks := chunks;
                                           web_results := Some web |} in
  (Forall2 (fun w w' => title w = title w' /\ web_content w = web_content w')
           results results' ->
   context_with results = context_with results')
  /\ (relevance_label ev <> JStr "irrelevant" ->
      Forall2 (fun w w' => web_content w = web_content w') results results' ->
      context_with results = context_with results').
Proof.
  intros context_with. unfold context_with, context_parts.
  cbn [web_results used_web_search evaluation retrieved_chunks from_option id]. split.
  - intros H. rewrite (truthy_Forall2 _ _ _ H).
    assert (H1 : web_search_parts results = web_search_parts results').
    { unfold web_search_parts. f_equal. apply (imap_Forall2_ext _ _ _ _ H).
      intros i w w' [Ht Hc]. unfold source_part. rewrite Ht, Hc. reflexivity. }
    assert (H2 : additional_web_parts results = additional_web_parts results').
    { unfold additional_web_parts. f_equal. apply (imap_Forall2_ext _ _ _ _ H).
      intros i w w' [_ Hc]. unfold web_source_part. rewrite Hc. reflexivity. }
    rewrite H1, H2. reflexivity.
  - intros Hne H.
    destruct (eq_str (relevance_label ev) "irrelevant") eqn:E;
      [apply eq_str_true in E; contradiction |].
    rewrite (truthy_Forall2 _ _ _ H).
    assert (H2 : additional_web_parts results = additional_web_parts results').
    { unfold additional_web_parts. f_equal. apply (imap_Forall2_ext _ _ _ _ H).
      intros i w w' Hc. unfold web_source_part. simpl in Hc. rewrite Hc. reflexivity. }
    rewrite H2. reflexivity.
Qed.

End SynthesisEdges.

(** ** Properties of [RetrievalService.retrieve] *)

Section RetrievalProperties.

Import Retrieval.

Variable env : Retrieval.Env.

Lemma convert_all_Returned hits chunks :
  convert_all env hits = Returned chunks ->
  Forall2 (fun hit chunk => convert env hit = Returned chunk) hits chunks.
Proof.
  revert chunks. induction hits as [| hit hits IH]; intros chunks; simpl.
  - intros H. inversion H. constructor.
  - destruct (convert env hit) as [chunk | e] eqn:Hc; simpl; [| discriminate].
    destruct (convert_all env hits) as [rest | e]; simpl; [| discriminate].
    intros H. inversion H. constructor; [exact Hc | apply IH; reflexivity].
Qed.

Lemma convert_all_app_Failed pre hit post e :
  Forall (fun h => exists chunk, convert env h = Returned chunk) pre ->
  convert env hit = Failed e ->
  convert_all env (pre ++ hit :: post)%list = Failed e.
Proof.
  intros Hpre Hhit. induction Hpre as [| h pre [chunk Hh] _ IH]; simpl.
  - rewrite Hhit. reflexivity.
  - rewrite Hh. simpl. rewrite IH. reflexivity.
Qed.


(** X22.  [retrieve] embeds the query first.  If the embedding raises, the
    error goes to the caller and the vector store is not searched.  Otherwise
    the store is searched once, with the query vector and with the [top_k]
    given, and only a missing [top_k] is replaced by [top_k_results]: an
    explicit zero is passed on as zero. *)
Theorem retrieve_calls query top_k :
  (forall e, embed_text env query = Raised e ->
             retrieve env query top_k = (Failed (Other e), [EmbedText query]))
  /\ (forall query_vector,
        embed_text env query = Ok query_vector ->
        snd (retrieve env query None)
        = [EmbedText query;
           VectorSearch query_vector (top_k_results (Retrieval.settings env))]
        /\ (forall k, snd (retrieve env query (Some k))
                      = [EmbedText query; VectorSearch query_vector k])).
Proof.
  split.
  - intros e He. unfold retrieve. rewrite He. reflexivity.
  - intros v Hv. unfold retrieve. rewrite Hv. split; [| intros k];
      destruct (vector_store_search env v _); reflexivity.
Qed.

(** X23.  The chunks returned are the hits of the vector store, one chunk
    per hit and in the order of the hits: nothing is dropped, added, sorted
    or filtered by score. *)
Theorem retrieve_keeps_order query top_k chunks calls :
  retrieve env query top_k = (Returned chunks, calls) ->
  exists query_vector k hits,
    embed_text env query = Ok query_vector
    /\ vector_store_search env query_vector k = Ok hits
    /\ Forall2 (fun hit chunk => convert env hit = Returned chunk) hits chunks
    /\ length chunks = length hits.
Proof.
  unfold retrieve.
  destruct (embed_text env query) as [v | e]; [| discriminate].
  destruct (vector_store_search env v _) as [hits | e] eqn:Hs; [| discriminate].
  intros H. inversion H as [[Hc Hl]]. apply convert_all_Returned in Hc.
  eexists v, _, hits. split; [reflexivity |]. split; [exact Hs |].
  split; [exact Hc |]. symmetry. apply (Forall2_length _ _ _ Hc).
Qed.


(** X25.  One bad hit fails the whole retrieval: when the hits before it
    convert and a hit is a dict without the key content, [retrieve] raises
    [KeyError] for that key and returns no chunk, whatever comes after. *)
Theorem retrieve_missing_content query top_k query_vector pre fields post :
  let k := match top_k with
           | None => top_k_results (Retrieval.settings env)
           | Some k => k
           end in
  embed_text env query = Ok query_vector ->
  vector_store_search env query_vector k = Ok (pre ++ JObj fields :: post)%list ->
  Forall (fun h => exists chunk, convert env h = Returned chunk) pre ->
  fields !! "content" = None ->
  retrieve env query top_k
  = (Failed (KeyError "content"), [EmbedText query; VectorSearch query_vector k]).
Proof.
  intros k Hv Hs Hpre Hnone. unfold retrieve. fold k. rewrite Hv, Hs.
  f_equal. apply convert_all_app_Failed; [exact Hpre |].
  unfold convert, getitem. rewrite Hnone. reflexivity.
Qed.

End RetrievalProperties.

(** ** The further scenarios, run *)

Lemma evaluate_relevance_single_call_witness :
  evaluate_relevance scenario_c capital_query [capital_chunk] []
  = (Ok (evaluation_of "ambiguous" (45 # 100) true), grader_log)
  /\ grader_log
     = ([] ++ [LLMGenerateWithJson
                 (evaluation_prompt capital_query (evaluation_context [capital_chunk]))
                 evaluation_system_prompt])%list.
Proof.
  assert (H : evaluate_relevance scenario_c capital_query [capital_chunk] []
              = (Ok (evaluation_of "ambiguous" (45 # 100) true), grader_log))
    by (vm_compute; reflexivity).
  split; [exact H |].
  exact (evaluate_relevance_single_call scenario_c capital_query [capital_chunk] []
           _ _ H).
Defined.

Lemma ambiguous_score_strictly_below_witness :
  (evaluate_relevance_try scenario_c capital_query [capital_chunk] []
   = (Ok (evaluation_of "ambiguous" (45 # 100) true), grader_log)
   /\ crag_ambiguous_threshold (settings scenario_c) = Finite (1 # 2))
  /\ (needs_web_search (evaluation_of "ambiguous" (45 # 100) true) = true
      <-> (45 # 100 < 1 # 2)%Q).
Proof.
  assert (H : evaluate_relevance_try scenario_c capital_query [capital_chunk] []
              = (Ok (evaluation_of "ambiguous" (45 # 100) true), grader_log))
    by (vm_compute; reflexivity).
  split; [split; [exact H | reflexivity] |].
  exact (proj1 (ambiguous_score_strictly_below scenario_c capital_query [capital_chunk]
                  [] _ _ (45 # 100) (1 # 2) H eq_refl eq_refl eq_refl)).
Defined.

Lemma nan_never_searches_witness :
  let ev := {| relevance_score := JNum NaN; relevance_label := JStr "ambiguous";
               confidence := JNum (Finite (7 # 10));
               evaluation_method := "llm_grader"; needs_web_search := false;
               evaluated_at := 0 |} in
  evaluate_relevance_try scenario_nan capital_query [capital_chunk] []
  = (Ok ev, grader_log)
  /\ needs_web_search ev = false.
Proof.
  intros ev.
  assert (H : evaluate_relevance_try scenario_nan capital_query [capital_chunk] []
              = (Ok ev, grader_log))
    by (vm_compute; reflexivity).
  split; [exact H |].
  exact (nan_never_searches scenario_nan capital_query [capital_chunk] [] _ _ H
           eq_refl (or_introl eq_refl)).
Defined.

Lemma raising_threshold_keeps_search_witness :
  (crag_ambiguous_threshold (settings scenario_c) = Finite (1 # 2)
   /\ crag_ambiguous_threshold (settings (with_settings lenient_settings scenario_c))
      = Finite (7 # 10)
   /\ (1 # 2 <= 7 # 10)%Q
   /\ routing scenario_c (JStr "ambiguous") (JNum (Finite (45 # 100))) = Ok true)
  /\ routing (with_settings lenient_settings scenario_c)
             (JStr "ambiguous") (JNum (Finite (45 # 100))) = Ok true.
Proof.
  assert (Hle : (1 # 2 <= 7 # 10)%Q) by (vm_compute; discriminate).
  split; [split; [reflexivity | split; [reflexivity | split; [exact Hle | reflexivity]]] |].
  exact (raising_threshold_keeps_search scenario_c
           (with_settings lenient_settings scenario_c)
           (JStr "ambiguous") (JNum (Finite (45 # 100))) (1 # 2) (7 # 10)
           eq_refl eq_refl Hle eq_refl).
Defined.

Lemma other_settings_do_not_matter_witness :
  (crag_ambiguous_threshold other_settings
   = crag_ambiguous_threshold (settings scenario_c)
   /\ crag_relevance_threshold other_settings
      <> crag_relevance_threshold (settings scenario_c))
  /\ execute_crag (with_settings other_settings scenario_c)
       capital_query [capital_chunk] []
     = execute_crag scenario_c capital_query [capital_chunk] [].
Proof.
  split; [split; [reflexivity | discriminate] |].
  exact (proj1 (proj2 (other_settings_do_not_matter scenario_c other_settings
                         capital_query [capital_chunk] scenario_c_result []
                         eq_refl))).
Defined.

(** The cut counts code points: two of them here are five bytes. *)
Example prefix_code_points_counts_code_points :
  prefix_code_points 2 (euro +:+ e_acute +:+ "abc") = euro +:+ e_acute
  /\ prefix_code_points 300 "short" = "short"
  /\ String.length (prefix_code_points 300 (content long_chunk_one)) = 330.
Proof. vm_compute. repeat split. Qed.

Lemma grader_sees_300_characters_witness :
  (Forall2 (fun c c' => prefix_code_points 300 (content c)
                        = prefix_code_points 300 (content c'))
           [long_chunk_one] [long_chunk_two]
   /\ content long_chunk_one <> content long_chunk_two)
  /\ evaluate_relevance scenario_c capital_query [long_chunk_one] []
     = evaluate_relevance scenario_c capital_query [long_chunk_two] [].
Proof.
  assert (H : Forall2 (fun c c' => prefix_code_points 300 (content c)
                                   = prefix_code_points 300 (content c'))
                      [long_chunk_one] [long_chunk_two]).
  { constructor; [vm_compute; reflexivity | constructor]. }
  split; [split; [exact H | vm_compute; discriminate] |].
  exact (proj1 (grader_sees_300_characters scenario_c capital_query _ _ [] H)).
Defined.

Lemma non_object_answer_falls_back_witness :
  (CRAGEvaluation_accepts scenario_list (JNum (Finite (1 # 2))) (JStr "ambiguous")
                          (JNum (Finite (1 # 2))) = true
   /\ json_loads scenario_list "[]" = Ok (JArr []))
  /\ evaluate_relevance scenario_list capital_query [capital_chunk] []
     = (Ok (fallback_evaluation 0), grader_log).
Proof.
  split; [split; reflexivity |].
  apply (non_object_answer_falls_back scenario_list capital_query [capital_chunk] []
           "[]" (JArr []) eq_refl eq_refl eq_refl).
  intros fields. discriminate.
Defined.

Lemma ambiguous_non_numeric_score_falls_back_witness :
  ((<["relevance_score" := JStr "high"]> ∅ : gmap string json) !! "relevance_score"
   = Some (JStr "high")
   /\ as_number (JStr "high") = None)
  /\ evaluate_relevance scenario_worded_score capital_query [capital_chunk] []
     = (Ok (fallback_evaluation 0), grader_log).
Proof.
  split; [split; reflexivity |].
  exact (ambiguous_non_numeric_score_falls_back scenario_worded_score
           capital_query [capital_chunk] [] "{...}"
           (<["relevance_score" := JStr "high"]> ∅) (JStr "high")
           eq_refl eq_refl eq_refl eq_refl eq_refl eq_refl).
Defined.

Lemma score_unread_outside_ambiguous_witness :
  (json_loads scenario_worded_relevant "{...}"
   = Ok (JObj (<["relevance_score" := JStr "high"]> (label_only "relevant")))
   /\ JStr "relevant" <> JStr "ambiguous")
  /\ evaluate_relevance scenario_worded_relevant capital_query [capital_chunk] []
     = (Ok worded_relevant_evaluation, grader_log).
Proof.
  split; [split; [reflexivity | discriminate] |].
  apply (score_unread_outside_ambiguous scenario_worded_relevant
           capital_query [capital_chunk] [] "{...}"
           (<["relevance_score" := JStr "high"]> (label_only "relevant"))
           eq_refl eq_refl); [discriminate | reflexivity].
Defined.

Lemma missing_label_and_score_witness :
  (json_loads scenario_empty_object "{}" = Ok (JObj ∅)
   /\ (∅ : gmap string json) !! "relevance_score" = None
   /\ (∅ : gmap string json) !! "relevance_label" = None)
  /\ evaluate_relevance scenario_empty_object capital_query [capital_chunk] []
     = (Ok {| relevance_score := JNum (Finite (1 # 2));
              relevance_label := JStr "ambiguous";
              confidence := JNum (Finite (7 # 10));
              evaluation_method := "llm_grader";
              needs_web_search := false;
              evaluated_at := 0 |}, grader_log).
Proof.
  split; [split; [reflexivity | split; reflexivity] |].
  exact (proj1 (missing_label_and_score scenario_empty_object capital_query
                  [capital_chunk] [] "{}" ∅ eq_refl eq_refl eq_refl eq_refl eq_refl)).
Defined.

Lemma evaluation_stamp_witness :
  evaluate_relevance scenario_grader_down capital_query [capital_chunk] []
  = (Ok (fallback_evaluation 0), grader_log)
  /\ evaluation_method (fallback_evaluation 0) = "llm_grader"
  /\ evaluated_at (fallback_evaluation 0) = utcnow scenario_grader_down.
Proof.
  assert (H : evaluate_relevance scenario_grader_down capital_query [capital_chunk] []
              = (Ok (fallback_evaluation 0), grader_log))
    by (vm_compute; reflexivity).
  split; [exact H |].
  destruct (evaluation_stamp scenario_grader_down capital_query [capital_chunk] []
              _ _ H) as (Hm & Ht & _).
  split; [exact Hm | exact Ht].
Defined.

Lemma execute_crag_passes_through_witness :
  execute_crag scenario_c capital_query [capital_chunk] []
  = (Ok scenario_c_result, (grader_log ++ [WebSearch capital_query 3])%list)
  /\ retrieved_chunks scenario_c_result = [capital_chunk]
  /\ fst (evaluate_relevance scenario_c capital_query [capital_chunk] [])
     = Ok (evaluation scenario_c_result).
Proof.
  assert (H : execute_crag scenario_c capital_query [capital_chunk] []
              = (Ok scenario_c_result, (grader_log ++ [WebSearch capital_query 3])%list))
    by (vm_compute; reflexivity).
  split; [exact H |].
  exact (execute_crag_passes_through scenario_c capital_query [capital_chunk] [] _ _ H).
Defined.

Lemma grader_failure_searches_witness :
  (CRAGEvaluation_accepts scenario_grader_down (JNum (Finite (1 # 2)))
     (JStr "ambiguous") (JNum (Finite (1 # 2))) = true
   /\ evaluate_relevance_try scenario_grader_down capital_query [capital_chunk] []
      = (Raised (ServiceError "completion timed out"), grader_log)
   /\ web_search_search scenario_grader_down capital_query 3 = Ok [capital_page])
  /\ execute_crag scenario_grader_down capital_query [capital_chunk] []
     = (Ok {| used_web_search := true;
              evaluation := fallback_evaluation 0;
              retrieved_chunks := [capital_chunk];
              web_results := Some [capital_page] |},
        ([] ++ [LLMGenerateWithJson
                  (evaluation_prompt capital_query
                                     (evaluation_context [capital_chunk]))
                  evaluation_system_prompt;
                WebSearch capital_query 3])%list).
Proof.
  assert (H : evaluate_relevance_try scenario_grader_down capital_query
                [capital_chunk] []
              = (Raised (ServiceError "completion timed out"), grader_log))
    by (vm_compute; reflexivity).
  split; [split; [reflexivity | split; [exact H | reflexivity]] |].
  exact (proj1 (grader_failure_searches scenario_grader_down capital_query
                  [capital_chunk] [] _ _ [capital_page] eq_refl H eq_refl)).
Defined.

Lemma unformattable_score_stops_pipeline_witness :
  (evaluate_relevance scenario_worded_relevant capital_query [capital_chunk] []
   = (Ok worded_relevant_evaluation, grader_log)
   /\ as_number (relevance_score worded_relevant_evaluation) = None)
  /\ execute_crag scenario_worded_relevant capital_query [capital_chunk] []
     = (Raised ValueError, grader_log).
Proof.
  assert (H : evaluate_relevance scenario_worded_relevant capital_query
                [capital_chunk] []
              = (Ok worded_relevant_evaluation, grader_log))
    by (vm_compute; reflexivity).
  split; [split; [exact H | reflexivity] |].
  exact (unformattable_score_stops_pipeline scenario_worded_relevant capital_query
           [capital_chunk] [] _ _ H eq_refl).
Defined.

(** Scenario A: relevant at 0.92, no web search, the chunk alone. *)
Lemma other_labels_use_chunks_only_witness :
  (evaluate_relevance_try scenario_a capital_query [capital_chunk] []
   = (Ok (evaluation_of "relevant" (92 # 100) false), grader_log)
   /\ JStr "relevant" <> JStr "irrelevant"
   /\ JStr "relevant" <> JStr "ambiguous"
   /\ format_2f (JNum (Finite (92 # 100))) = Ok tt)
  /\ execute_crag scenario_a capital_query [capital_chunk] []
     = (Ok {| used_web_search := false;
              evaluation := evaluation_of "relevant" (92 # 100) false;
              retrieved_chunks := [capital_chunk];
              web_results := None |}, grader_log).
Proof.
  assert (H : evaluate_relevance_try scenario_a capital_query [capital_chunk] []
              = (Ok (evaluation_of "relevant" (92 # 100) false), grader_log))
    by (vm_compute; reflexivity).
  assert (H1 : JStr "relevant" <> JStr "irrelevant") by discriminate.
  assert (H2 : JStr "relevant" <> JStr "ambiguous") by discriminate.
  assert (H3 : format_2f (JNum (Finite (92 # 100))) = Ok tt) by (vm_compute; reflexivity).
  split; [split; [exact H | split; [exact H1 | split; [exact H2 | exact H3]]] |].
  exact (proj1 (other_labels_use_chunks_only scenario_a capital_query [capital_chunk]
                  [] _ _ H H1 H2 H3)).
Defined.

Lemma pipeline_context_witness :
  execute_crag scenario_a capital_query [capital_chunk] []
  = (Ok {| used_web_search := false;
           evaluation := evaluation_of "relevant" (92 # 100) false;
           retrieved_chunks := [capital_chunk];
           web_results := None |}, grader_log)
  /\ context_parts {| used_web_search := false;
                      evaluation := evaluation_of "relevant" (92 # 100) false;
                      retrieved_chunks := [capital_chunk];
                      web_results := None |}
     = retrieved_parts [capital_chunk].
Proof.
  assert (H : execute_crag scenario_a capital_query [capital_chunk] []
              = (Ok {| used_web_search := false;
                       evaluation := evaluation_of "relevant" (92 # 100) false;
                       retrieved_chunks := [capital_chunk];
                       web_results := None |}, grader_log))
    by (vm_compute; reflexivity).
  split; [exact H |].
  exact (proj2 (proj2 (pipeline_context scenario_a capital_query [capital_chunk] []
                         _ _ H) eq_refl)).
Defined.

Lemma irrelevant_ignores_used_web_search_witness :
  relevance_label (evaluation_of "irrelevant" (2 # 10) true) = JStr "irrelevant"
  /\ context_parts {| used_web_search := false;
                      evaluation := evaluation_of "irrelevant" (2 # 10) true;
                      retrieved_chunks := [capital_chunk];
                      web_results := Some [capital_page] |}
     = web_search_parts [capital_page].
Proof.
  split; [reflexivity |].
  exact (irrelevant_ignores_used_web_search false
           (evaluation_of "irrelevant" (2 # 10) true) [capital_chunk]
           capital_page [] eq_refl).
Defined.

Lemma unused_web_results_are_ignored_witness :
  relevance_label (evaluation_of "ambiguous" (6 # 10) false) <> JStr "irrelevant"
  /\ context_parts {| used_web_search := false;
                      evaluation := evaluation_of "ambiguous" (6 # 10) false;
                      retrieved_chunks := [capital_chunk];
                      web_results := Some [capital_page] |}
     = retrieved_parts [capital_chunk].
Proof.
  assert (H : relevance_label (evaluation_of "ambiguous" (6 # 10) false)
              <> JStr "irrelevant") by discriminate.
  split; [exact H |].
  exact (unused_web_results_are_ignored (evaluation_of "ambiguous" (6 # 10) false)
           [capital_chunk] (Some [capital_page]) H).
Defined.

Lemma retrieve_keeps_order_witness :
  Retrieval.retrieve (retrieval_scenario two_hits) capital_query None
  = (Retrieval.Returned [chunk_of "Paris is the capital of France." (9 # 10);
                         chunk_of "Lyon is a city in France." (5 # 10)],
     retrieval_calls)
  /\ exists query_vector k hits,
       Retrieval.embed_text (retrieval_scenario two_hits) capital_query
       = Ok query_vector
       /\ Retrieval.vector_store_search (retrieval_scenario two_hits) query_vector k
          = Ok hits
       /\ Forall2 (fun hit chunk =>
                     Retrieval.convert (retrieval_scenario two_hits) hit
                     = Retrieval.Returned chunk)
                  hits
                  [chunk_of "Paris is the capital of France." (9 # 10);
                   chunk_of "Lyon is a city in France." (5 # 10)]
       /\ length [chunk_of "Paris is the capital of France." (9 # 10);
                  chunk_of "Lyon is a city in France." (5 # 10)]
          = length hits.
Proof.
  assert (H : Retrieval.retrieve (retrieval_scenario two_hits) capital_query None
              = (Retrieval.Returned
                   [chunk_of "Paris is the capital of France." (9 # 10);
                    chunk_of "Lyon is a city in France." (5 # 10)],
                 retrieval_calls))
    by (vm_compute; reflexivity).
  split; [exact H |].
  exact (retrieve_keeps_order (retrieval_scenario two_hits) capital_query None _ _ H).
Defined.


(** The second hit has no content: no chunk comes back, not even the first. *)
Lemma retrieve_missing_content_witness :
  let bad := <["score" := JNum (Finite (5 # 10))]> (∅ : gmap string json) in
  let good := hit "Paris is the capital of France." (9 # 10) in
  let env := retrieval_scenario [good; JObj bad; good] in
  (Retrieval.embed_text env capital_query = Ok [Finite 1; Finite 0]
   /\ Retrieval.vector_store_search env [Finite 1; Finite 0] 5
      = Ok ([good] ++ JObj bad :: [good])%list
   /\ Forall (fun h => exists chunk, Retrieval.convert env h = Retrieval.Returned chunk)
             [good]
   /\ bad !! "content" = None)
  /\ Retrieval.retrieve env capital_query None
     = (Retrieval.Failed (Retrieval.KeyError "content"), retrieval_calls).
Proof.
  intros bad good env.
  assert (Hgood : Forall (fun h => exists chunk,
                            Retrieval.convert env h = Retrieval.Returned chunk) [good]).
  { constructor; [| constructor].
    exists (chunk_of "Paris is the capital of France." (9 # 10)).
    vm_compute. reflexivity. }
  assert (Hbad : bad !! "content" = None) by (vm_compute; reflexivity).
  split; [split; [reflexivity | split; [reflexivity | split; [exact Hgood | exact Hbad]]] |].
  exact (retrieve_missing_content env capital_query None [Finite 1; Finite 0]
           [good] bad [good] eq_refl eq_refl Hgood Hbad).
Defined.
